(** * py3status-lights: the LED frame encoder and the click handler

    A shallow embedding of [src/py3status_lights/lights.py] (class
    [Py3status]) and the properties its specification states about it.

    Python values are modelled as follows: [int] as [Z] (unbounded),
    [str] as [string], [bytes] as [list byte], a list as [list], [None]
    where a function may return it as [option].  A raised exception is an
    explicit outcome; the attributes of [self] that the handlers assign are
    a record that is threaded through the calls, next to the host's
    key/value store and the trace of calls made on the host and the
    socket. *)

From Stdlib Require Import ZArith List String Ascii Strings.Byte Bool Lia.
Import ListNotations.

Local Open Scope string_scope.
Local Open Scope Z_scope.

(** ** Python primitives *)

Module Py.

(** Exceptions the module can meet. *)
Inductive exn :=
| ZeroDivisionError
| IndexError
| TypeError
| ValueError
| OSError.

(** What a call does: return a value or raise. *)
Inductive outcome (A : Type) :=
| Ret (a : A)
| Raise (e : exn).
Arguments Ret {A} a.
Arguments Raise {A} e.

Definition obind {A B} (m : outcome A) (k : A -> outcome B) : outcome B :=
  match m with
  | Ret a => k a
  | Raise e => Raise e
  end.

Definition omap {A B} (f : A -> B) (m : outcome A) : outcome B :=
  obind m (fun a => Ret (f a)).

(** A [for] loop whose body may raise: the loop stops at the first
    exception. *)
Fixpoint for_each {A S} (l : list A) (body : S -> A -> outcome S) (s : S)
    : outcome S :=
  match l with
  | [] => Ret s
  | a :: r => obind (body s a) (for_each r body)
  end.

(** [range(n)]: 0, 1, ..., n-1; empty when [n <= 0]. *)
Definition range (n : Z) : list Z := map Z.of_nat (seq 0 (Z.to_nat n)).

(** [int(a / b)] on two ints: the true quotient, truncated toward zero by
    [int()].  The quotient is a float in Python: the exact rational rounded
    to a double, or an [OverflowError] when it is beyond the range of a
    double.  Truncating it gives [Z.quot a b] as long as both operands are
    at most 2^53 in magnitude ([float_exact] below), which holds for every
    LED count a frame can be built for; this is the range the model is
    meant for, and it has no [OverflowError].  A statement that lets a
    count leave the strip names the range as a hypothesis. *)
Definition int_truediv (a b : Z) : outcome Z :=
  if b =? 0 then Raise ZeroDivisionError else Ret (Z.quot a b).

(** The integers a double holds exactly, one by one: those of a magnitude
    up to 2^53.  For such an [a], [a / 2] is a double as well, and
    [int(a / 2)] is [a] halved and truncated. *)
Definition float_exact (a : Z) : bool := Z.abs a <=? 2 ^ 53.

(** [a % b] on two ints: the result has the sign of the divisor. *)
Definition mod_ (a b : Z) : outcome Z :=
  if b =? 0 then Raise ZeroDivisionError else Ret (a mod b).

(** [l[i]]: negative indices count from the end. *)
Definition getitem {A} (l : list A) (i : Z) : outcome A :=
  let len := Z.of_nat (List.length l) in
  let j := if i <? 0 then i + len else i in
  if (j <? 0) || (len <=? j) then Raise IndexError
  else match nth_error l (Z.to_nat j) with
       | Some a => Ret a
       | None => Raise IndexError
       end.

(** [s.rstrip("\n")]: every trailing newline goes. *)
Definition is_nl (c : ascii) : bool := Ascii.eqb c "010"%char.

Fixpoint rstrip_nl (s : string) : string :=
  match s with
  | EmptyString => EmptyString
  | String c r =>
      let r' := rstrip_nl r in
      if is_nl c && (r' =? "")%string then "" else String c r'
  end.

(** Concatenation of a list of strings, [''.join(l)]. *)
Fixpoint join (l : list string) : string :=
  match l with
  | [] => ""
  | s :: r => s ++ join r
  end.

(** *** [bytes.fromhex] *)

Definition hexval (c : ascii) : option N :=
  let n := N_of_ascii c in
  if (48 <=? n)%N && (n <=? 57)%N then Some (n - 48)%N
  else if (97 <=? n)%N && (n <=? 102)%N then Some (n - 87)%N
  else if (65 <=? n)%N && (n <=? 70)%N then Some (n - 55)%N
  else None.

Definition is_hexdigit (c : ascii) : bool :=
  match hexval c with Some _ => true | None => false end.

(** ASCII whitespace, skipped between two bytes. *)
Definition is_space (c : ascii) : bool :=
  let n := N_of_ascii c in
  (n =? 32)%N || ((9 <=? n)%N && (n <=? 13)%N).

Definition mkbyte (hi lo : N) : byte :=
  byte_of_ascii (ascii_of_N (16 * hi + lo)).

Fixpoint fromhex_str (s : string) : outcome (list byte) :=
  match s with
  | EmptyString => Ret []
  | String c r =>
      if is_space c then fromhex_str r
      else match hexval c, r with
           | Some hi, String d r' =>
               match hexval d with
               | Some lo => omap (cons (mkbyte hi lo)) (fromhex_str r')
               | None => Raise ValueError
               end
           | _, _ => Raise ValueError
           end
  end.

(** [bytes.fromhex(msg)]; anything but a [str] is a [TypeError]. *)
Definition fromhex (msg : option string) : outcome (list byte) :=
  match msg with
  | None => Raise TypeError
  | Some s => fromhex_str s
  end.

End Py.
Import Py.

Declare Scope outcome_scope.
Notation "x <- m ;; k" := (obind m (fun x => k))
  (at level 61, m at next level, right associativity) : outcome_scope.
Delimit Scope outcome_scope with outcome.

(** ** Configuration *)

(** The configuration parameters of the class (those the encoder and the
    click handler read). *)
Record config := Config {
  proto : string;
  leds_total : Z;
  mode : string;
  colors : list string;
  color_picker : list string
}.

(** ** The frame encoder *)

Definition _header (proto : string) : string :=
  let header := "" in
  if (proto =? "drgb")%string then (header ++ "02") ++ "FF" else header.

(** The body of [_frame] from line 174 on, as a function of the value
    [frame] has there. *)
Definition frame_from (cfg : config) (frame : string)
    (leds leds_total : Z) (color : string) : outcome (option string) :=
  (start <- (if (mode cfg =? "center")%string
             then int_truediv (leds_total - leds) 2
             else Ret 0) ;;
   if (mode cfg =? "center")%string || (mode cfg =? "default")%string then
     Ret (Some (fold_left
                  (fun frame n =>
                     if (start <=? n) && (n <? start + leds)
                     then frame ++ color
                     else frame ++ "000000")
                  (range leds_total) frame))
   else if (mode cfg =? "distribute")%string then
     if leds <? 1 then Ret None
     else
       m <- int_truediv leds_total leds ;;
       frame <- for_each (range leds_total)
                  (fun frame n =>
                     r <- mod_ n m ;;
                     if (r =? 1) || (m <? 2)
                     then Ret (frame ++ color)
                     else Ret (frame ++ "000000"))
                  frame ;;
       Ret (Some frame)
   else Ret (Some frame))%outcome.

Definition _frame (cfg : config) (proto : string) (leds leds_total : Z)
    (color : string) : outcome (option string) :=
  frame_from cfg (_header proto) leds leds_total color.

(** ** The host, the object and the effects *)

Inductive level := LOG_INFO | LOG_WARNING | LOG_ERROR.

(** How the probe datagram of [_get_socket] ends: sent, a [socket.gaierror],
    or any other exception. *)
Inductive probe := ProbeSent | ProbeGaierror | ProbeFailed (e : exn).

(** What the surroundings decide: the host's colour constant, the colour
    picker (the lines its standard output yields for a command, [None] when
    [subprocess.Popen] cannot spawn it; a run that ends, so that the lines
    are finitely many), the exception [subprocess.Popen] raises for a
    command it cannot spawn ([IndexError] for the empty command, an
    [OSError] such as [FileNotFoundError] for a missing executable), and
    the network (whether [sendto] raises on a datagram). *)
Record host := Host {
  COLOR_GOOD : string;
  picker : list string -> option (list string);
  spawn_error : list string -> exn;
  sendto_raises : list byte -> bool;
  probe_result : probe
}.

(** The attributes of [self] that the handlers assign. *)
Record attrs := Attrs {
  leds : Z;
  color : string;
  color_idx : Z
}.

(** The host's key/value store under the keys this module uses; [None] is
    an absent key.  Each key holds what [_store_state] writes under it. *)
Record storage := Storage {
  sto_leds : option Z;
  sto_color : option string;
  sto_color_idx : option Z
}.

Record world := World {
  self : attrs;
  store : storage
}.

(** Calls that leave the module, in the order they are made.  [Fromhex msg]
    is the call [bytes.fromhex(msg)] of [_send_frame]: the encoder's result
    handed to the transport.  [Sendto data] is [sock.sendto(data, ...)]. *)
Inductive event :=
| Fromhex (msg : option string)
| Sendto (data : list byte)
| Log (msg : string) (cause : option exn) (lvl : level)
| Update.

(** A method: it runs in a world, leaves a world and a trace, and returns
    or raises.  What was assigned before an exception stays assigned. *)
Definition M (A : Type) : Type := world -> world * list event * outcome A.

Definition ret {A} (a : A) : M A := fun w => (w, [], Ret a).

Definition bind {A B} (m : M A) (k : A -> M B) : M B :=
  fun w =>
    let '(w1, t1, r1) := m w in
    match r1 with
    | Ret a => let '(w2, t2, r2) := k a w1 in (w2, (t1 ++ t2)%list, r2)
    | Raise e => (w1, t1, Raise e)
    end.

Definition raise {A} (e : exn) : M A := fun w => (w, [], Raise e).

Definition lift {A} (o : outcome A) : M A := fun w => (w, [], o).

Definition call (e : event) : M unit := fun w => (w, [e], Ret tt).

(** [try: m except Exception as e: h e] *)
Definition try_except {A} (m : M A) (h : exn -> M A) : M A :=
  fun w =>
    let '(w1, t1, r1) := m w in
    match r1 with
    | Ret a => (w1, t1, Ret a)
    | Raise e => let '(w2, t2, r2) := h e w1 in (w2, (t1 ++ t2)%list, r2)
    end.

Definition get_self : M attrs := fun w => (w, [], Ret (self w)).

Definition set_self (f : attrs -> attrs) : M unit :=
  fun w => (World (f (self w)) (store w), [], Ret tt).

Definition get_store : M storage := fun w => (w, [], Ret (store w)).

Definition set_store (f : storage -> storage) : M unit :=
  fun w => (World (self w) (f (store w)), [], Ret tt).

Declare Scope method_scope.
Delimit Scope method_scope with method.
Notation "x <- m ;; k" := (bind m (fun x => k))
  (at level 61, m at next level, right associativity) : method_scope.
Notation "m ;; k" := (bind m (fun _ => k))
  (at level 61, right associativity) : method_scope.

(** [for a in l: body a] *)
Fixpoint for_ {A} (l : list A) (body : A -> M unit) : M unit :=
  match l with
  | [] => ret tt
  | a :: r => (body a ;; for_ r body)%method
  end.

Definition set_leds (v : Z) : M unit :=
  set_self (fun s => Attrs v (color s) (color_idx s)).
Definition set_color (v : string) : M unit :=
  set_self (fun s => Attrs (leds s) v (color_idx s)).
Definition set_color_idx (v : Z) : M unit :=
  set_self (fun s => Attrs (leds s) (color s) v).

Definition log (msg : string) (cause : option exn) (lvl : level) : M unit :=
  call (Log msg cause lvl).

(** ** The methods *)

Section Methods.

Variable cfg : config.
Variable py3 : host.

(** [self.ncolors], assigned once by [post_config_hook]. *)
Definition ncolors : Z := Z.of_nat (List.length (colors cfg)).

Definition _store_state : M unit :=
  (s <- get_self ;;
   set_store (fun st =>
     Storage (Some (leds s)) (sto_color st) (sto_color_idx st)) ;;
   s <- get_self ;;
   set_store (fun st =>
     Storage (sto_leds st) (Some (color s)) (sto_color_idx st)) ;;
   s <- get_self ;;
   set_store (fun st =>
     Storage (sto_leds st) (sto_color st) (Some (color_idx s))))%method.

(** The probe datagram is sent, or raises [socket.gaierror], or raises
    anything else. *)
Definition _get_socket : M unit :=
  match probe_result py3 with
  | ProbeSent => ret tt
  | ProbeGaierror => log "Failed to bind v4 socket" None LOG_WARNING
  | ProbeFailed e => log "Socket error: " (Some e) LOG_ERROR
  end.

Definition _send_frame : M unit :=
  (s <- get_self ;;
   msg <- lift (_frame cfg (proto cfg) (leds s) (leds_total cfg) (color s)) ;;
   try_except
     (call (Fromhex msg) ;;
      data <- lift (fromhex msg) ;;
      call (Sendto data) ;;
      if sendto_raises py3 data then raise OSError else ret tt)
     (fun e => log "Failed to contact light: " (Some e) LOG_ERROR))%method.

(** The generator: [subprocess.Popen(cmd, ...)] raises, or the lines of
    the process are yielded one by one until its output ends. *)
Definition _run_color_picker (cmd : list string) : M (list string) :=
  match picker py3 cmd with
  | Some lines => ret lines
  | None => raise (spawn_error py3 cmd)
  end.

Definition on_click (button : Z) : M unit :=
  ((if button =? 1 then
      s <- get_self ;;
      set_color_idx (color_idx s + 1) ;;
      s <- get_self ;;
      (if color_idx s >? ncolors - 1 then set_color_idx 0 else ret tt) ;;
      s <- get_self ;;
      c <- lift (getitem (colors cfg) (color_idx s)) ;;
      set_color c ;;
      _send_frame
    else if button =? 2 then
      lines <- _run_color_picker (color_picker cfg) ;;
      for_ lines (fun c =>
        set_color (rstrip_nl c) ;;
        s <- get_self ;;
        log (color s) None LOG_INFO ;;
        _send_frame ;;
        call Update)
    else if button =? 3 then
      set_color "000000" ;;
      _send_frame ;;
      set_color (COLOR_GOOD py3)
    else if button =? 4 then
      s <- get_self ;;
      if leds s <? leds_total cfg then
        set_leds (leds s + 1) ;;
        _send_frame
      else ret tt
    else if button =? 5 then
      s <- get_self ;;
      if leds s >? 0 then
        set_leds (leds s - 1) ;;
        _send_frame
      else ret tt
    else ret tt) ;;
   _store_state)%method.

(** The three attributes are read from the store and replaced by their
    initial values where [not v] holds: for an absent key, for 0 and for
    the empty string. *)
Definition post_config_hook : M unit :=
  (st <- get_store ;;
   l <- match sto_leds st with
        | Some v =>
            if v =? 0
            then log "Storage empty, setting initial values" None LOG_WARNING ;;
                 ret 23
            else ret v
        | None =>
            log "Storage empty, setting initial values" None LOG_WARNING ;;
            ret 23
        end ;;
   let i := match sto_color_idx st with
            | Some v => if v =? 0 then 0 else v
            | None => 0
            end in
   let c := match sto_color st with
            | Some v => if (v =? "")%string then COLOR_GOOD py3 else v
            | None => COLOR_GOOD py3
            end in
   set_self (fun _ => Attrs l c i) ;;
   _get_socket)%method.

End Methods.

Arguments _frame : simpl never.
Arguments _send_frame : simpl never.
Arguments getitem : simpl never.

(** ** Observing a frame *)

(** The [n]-th 6-digit block of [frame] behind a header [hdr]. *)
Definition block (hdr frame : string) (n : Z) : string :=
  substring (String.length hdr + 6 * Z.to_nat n) 6 frame.

(** Every character is a hexadecimal digit. *)
Fixpoint all_hex (s : string) : bool :=
  match s with
  | EmptyString => true
  | String c r => is_hexdigit c && all_hex r
  end.

(** A character [bytes.fromhex] accepts nowhere: neither a hexadecimal
    digit nor white space. *)
Definition undecodable (c : ascii) : bool :=
  negb (is_hexdigit c) && negb (is_space c).

Fixpoint has_undecodable (s : string) : bool :=
  match s with
  | EmptyString => false
  | String c r => undecodable c || has_undecodable r
  end.

(** The frames a trace hands to the transport, in order. *)
Fixpoint emitted (t : list event) : list string :=
  match t with
  | [] => []
  | Fromhex (Some f) :: r => f :: emitted r
  | _ :: r => emitted r
  end.

(** The datagrams a trace puts on the socket, in order. *)
Fixpoint transmitted (t : list event) : list (list byte) :=
  match t with
  | [] => []
  | Sendto d :: r => d :: transmitted r
  | _ :: r => transmitted r
  end.

(** The log entries of a trace at severity [lvl]. *)
Definition is_log_at (lvl : level) (e : event) : bool :=
  match e, lvl with
  | Log _ _ LOG_INFO, LOG_INFO => true
  | Log _ _ LOG_WARNING, LOG_WARNING => true
  | Log _ _ LOG_ERROR, LOG_ERROR => true
  | _, _ => false
  end.

Definition logged_at (lvl : level) (t : list event) : list event :=
  filter (is_log_at lvl) t.

(** The three parts of running a method. *)
Definition world_of {A} (r : world * list event * outcome A) : world :=
  fst (fst r).
Definition trace_of {A} (r : world * list event * outcome A) : list event :=
  snd (fst r).
Definition result_of {A} (r : world * list event * outcome A) : outcome A :=
  snd r.

(** ** Reading the encoder and the handlers *)

(** LED [n] lies in the run of [leds] LEDs that begins at [start]. *)
Definition in_run (start leds n : Z) : bool :=
  (start <=? n) && (n <? start + leds).

(** LED [n] is picked when one LED in [m] is. *)
Definition picked (m n : Z) : bool := (n mod m =? 1) || (m <? 2).

(** The block of a lit LED and of a dark one. *)
Definition paint (color : string) (b : bool) : string :=
  if b then color else "000000".

(** The frame [_send_frame] asks for when the attributes are [s]. *)
Definition frame_of (cfg : config) (s : attrs) : outcome (option string) :=
  _frame cfg (proto cfg) (leds s) (leds_total cfg) (color s).

(** What the [try] statement of [_send_frame] leaves in the trace. *)
Definition transport (py3 : host) (msg : option string) : list event :=
  Fromhex msg ::
  match fromhex msg with
  | Raise e => [Log "Failed to contact light: " (Some e) LOG_ERROR]
  | Ret data =>
      Sendto data ::
      (if sendto_raises py3 data
       then [Log "Failed to contact light: " (Some OSError) LOG_ERROR]
       else [])
  end.

(** The two traces a send can leave.  [sent]: the message is decoded and
    the datagram is put on the socket; an error is logged when the socket
    raises.  [rejected]: the decoder raises [e], which is logged as an
    error, and nothing is put on the socket. *)
Definition sent (py3 : host) (msg : option string) (data : list byte)
    : list event :=
  Fromhex msg :: Sendto data
    :: (if sendto_raises py3 data
        then [Log "Failed to contact light: " (Some OSError) LOG_ERROR]
        else []).

Definition rejected (msg : option string) (e : exn) : list event :=
  [Fromhex msg; Log "Failed to contact light: " (Some e) LOG_ERROR].

(** What [_store_state] writes for the attributes [s]. *)
Definition stored (s : attrs) : storage :=
  Storage (Some (leds s)) (Some (color s)) (Some (color_idx s)).

(** Attributes [s] assigned, then [_send_frame], then [_store_state]: the
    shape of the branches that send. *)
Definition sent_and_stored (cfg : config) (py3 : host) (s : attrs)
    (st : storage) : world * list event * outcome unit :=
  match frame_of cfg s with
  | Ret msg => (World s (stored s), transport py3 msg, Ret tt)
  | Raise e => (World s st, [], Raise e)
  end.

(** The body of the loop over the lines of the colour picker. *)
Definition picked_line (cfg : config) (py3 : host) (c : string) : M unit :=
  (set_color (rstrip_nl c) ;;
   s <- get_self ;;
   log (color s) None LOG_INFO ;;
   _send_frame cfg py3 ;;
   call Update)%method.

(** What one line [c] of the colour picker leaves in the trace when the
    object has the LED count and the index of [s]: the colour is logged,
    the frame goes to the transport, the widget is refreshed. *)
Definition line_events (cfg : config) (py3 : host) (s : attrs) (c : string)
    : list event :=
  match frame_of cfg (Attrs (leds s) (rstrip_nl c) (color_idx s)) with
  | Ret msg =>
      Log (rstrip_nl c) None LOG_INFO :: (transport py3 msg ++ [Update])%list
  | Raise _ => [Log (rstrip_nl c) None LOG_INFO]
  end.

(** The world after a sequence of clicks. *)
Fixpoint clicks (cfg : config) (py3 : host) (buttons : list Z) (w : world)
    : world :=
  match buttons with
  | [] => w
  | b :: r => clicks cfg py3 r (world_of (on_click cfg py3 b w))
  end.

(** ** Sample installations *)

Module Sample.

(** The palette the class ships with. *)
Definition palette : list string := ["#68D74C"; "#E05B22"; "#C60D12"].

(** A strip of [total] LEDs driven in mode [m]. *)
Definition strip (m : string) (total : Z) : config :=
  Config "drgb" total m palette ["color_picker"].

(** The same colours written as [bytes.fromhex] takes them. *)
Definition hex_palette : list string := ["68D74C"; "E05B22"; "C60D12"].

Definition hex_strip (m : string) (total : Z) : config :=
  Config "drgb" total m hex_palette ["color_picker"].

(** What [subprocess.Popen] raises where no colour picker is installed. *)
Definition no_picker (cmd : list string) : exn :=
  match cmd with
  | [] => IndexError
  | _ :: _ => OSError
  end.

(** A host with no colour picker installed and a network that accepts
    every datagram. *)
Definition quiet : host :=
  Host "#00FF00" (fun _ => None) no_picker (fun _ => false) ProbeSent.

(** A host whose colour picker yields [lines] and ends. *)
Definition picking (lines : list string) : host :=
  Host "#00FF00" (fun _ => Some lines) no_picker (fun _ => false) ProbeSent.

(** The object with [l] LEDs on in the colour [c]. *)
Definition lit (l : Z) (c : string) : world :=
  World (Attrs l c 0) (Storage None None None).

(** The object with [l] LEDs on, before anything was stored. *)
Definition fresh (l : Z) : world :=
  World (Attrs l "#00FF00" 0) (Storage None None None).

End Sample.

Arguments transport : simpl never.
Arguments frame_of : simpl never.

(** Unfolds the plumbing of a method. *)
Ltac run :=
  cbv [bind ret raise lift call try_except get_self set_self get_store
       set_store set_leds set_color set_color_idx log world_of trace_of
       result_of]; simpl.

(** ** The widget *)

(** The display parameters of the class. *)
Record skin := Skin {
  name : string;
  icon : string;
  icon_color : string;
  format : string
}.

(** The dictionary [lights] returns. *)
Record widget := Widget {
  full_text : string;
  w_name : string;
  w_color : string;
  w_icon : string;
  w_icon_color : string;
  w_leds : Z
}.

(** [lights]: the host's [safe_format] is applied to the template and to
    the three one-entry dictionaries for name, colour and LED count; the
    other entries are read from the object. *)
Definition lights (sk : skin)
    (safe_format : string -> string -> string -> Z -> string) : M widget :=
  (s <- get_self ;;
   let name := name sk in
   let color := color s in
   let icon := icon sk in
   let icon_color := icon_color sk in
   let leds := leds s in
   ret (Widget (safe_format (format sk) name color leds)
          name color icon icon_color leds))%method.

(** ** Further observations *)

(** The widget refreshes a trace asks the host for. *)
Fixpoint updates (t : list event) : nat :=
  match t with
  | [] => 0%nat
  | Update :: r => S (updates r)
  | _ :: r => updates r
  end.

(** The LEDs whose block in [frame] is [color]. *)
Definition lit_leds (hdr frame color : string) (total : Z) : list Z :=
  filter (fun n => (block hdr frame n =? color)%string) (range total).

(** The bytes of a dark LED. *)
Definition dark : list byte := [x00; x00; x00].

(** A host that differs from [py3] in the network only. *)
Definition with_network (py3 : host) (net : list byte -> bool) : host :=
  Host (COLOR_GOOD py3) (picker py3) (spawn_error py3) net (probe_result py3).

(** * Properties *)

(** ** Strings and ranges *)

Section Strings.

Lemma append_assoc (a b c : string) : (a ++ b) ++ c = a ++ (b ++ c).
Proof. induction a as [|x a IH]; simpl; [reflexivity | now rewrite IH]. Qed.

Lemma append_empty_r (a : string) : a ++ "" = a.
Proof. induction a as [|x a IH]; simpl; [reflexivity | now rewrite IH]. Qed.

Lemma length_append (a b : string) :
  String.length (a ++ b) = (String.length a + String.length b)%nat.
Proof. induction a as [|x a IH]; simpl; [reflexivity | now rewrite IH]. Qed.

Lemma all_hex_append (a b : string) :
  all_hex (a ++ b) = all_hex a && all_hex b.
Proof.
  induction a as [|x a IH]; simpl; [reflexivity |].
  now rewrite IH, andb_assoc.
Qed.

Lemma substring_skip (a b : string) (n m : nat) :
  substring (String.length a + n) m (a ++ b) = substring n m b.
Proof. induction a as [|x a IH]; simpl; [reflexivity | exact IH]. Qed.

Lemma substring_take (a b : string) :
  substring 0 (String.length a) (a ++ b) = a.
Proof.
  induction a as [|x a IH]; simpl.
  - destruct b; reflexivity.
  - now rewrite IH.
Qed.

Lemma prefix_append (a b : string) : prefix a (a ++ b) = true.
Proof.
  induction a as [|x a IH]; simpl.
  - destruct b; reflexivity.
  - destruct (ascii_dec x x) as [_|ne]; [exact IH | now elim ne].
Qed.

(** A [for] loop that appends one piece per element. *)
Lemma fold_left_append {A} (f : A -> string) (l : list A) (acc : string) :
  fold_left (fun frame n => frame ++ f n) l acc = acc ++ join (map f l).
Proof.
  revert acc; induction l as [|a l IH]; intros acc; simpl.
  - now rewrite append_empty_r.
  - now rewrite IH, append_assoc.
Qed.

Lemma length_join (bs : list string) (k : nat) :
  Forall (fun b => String.length b = k) bs ->
  String.length (join bs) = (k * List.length bs)%nat.
Proof.
  induction 1 as [|b bs Hb _ IH]; simpl; [lia |].
  rewrite length_append, IH, Hb. lia.
Qed.

Lemma all_hex_join (bs : list string) :
  Forall (fun b => all_hex b = true) bs -> all_hex (join bs) = true.
Proof.
  induction 1 as [|b bs Hb _ IH]; simpl; [reflexivity |].
  now rewrite all_hex_append, Hb, IH.
Qed.

(** The [n]-th piece of a concatenation of pieces of equal length. *)
Lemma substring_join (bs : list string) (k n : nat) :
  Forall (fun b => String.length b = k) bs ->
  (n < List.length bs)%nat ->
  substring (k * n) k (join bs) = nth n bs "".
Proof.
  intros H; revert n; induction H as [|b bs Hb _ IH]; intros n Hn; simpl in *.
  - lia.
  - destruct n as [|n].
    + rewrite Nat.mul_0_r, <- Hb. apply substring_take.
    + replace (k * S n)%nat with (String.length b + k * n)%nat by lia.
      rewrite substring_skip. apply IH. lia.
Qed.

Lemma length_range (n : Z) : List.length (range n) = Z.to_nat n.
Proof. unfold range. now rewrite length_map, length_seq. Qed.

Lemma in_range (n k : Z) : In k (range n) <-> 0 <= k < n.
Proof.
  unfold range. rewrite in_map_iff. split.
  - intros (i & <- & Hi). apply in_seq in Hi. lia.
  - intros Hk. exists (Z.to_nat k). split; [lia |]. apply in_seq. lia.
Qed.

Lemma nth_range (n k : Z) (d : Z) :
  0 <= k < n -> nth (Z.to_nat k) (range n) d = k.
Proof.
  intros Hk. unfold range.
  rewrite (nth_indep _ d (Z.of_nat 0)) by (rewrite length_map, length_seq; lia).
  rewrite map_nth, seq_nth by lia. lia.
Qed.

(** The block read back from a header followed by one piece per LED. *)
Lemma block_join (hdr : string) (f : Z -> string) (total n : Z) :
  (forall k, 0 <= k < total -> String.length (f k) = 6%nat) ->
  0 <= n < total ->
  block hdr (hdr ++ join (map f (range total))) n = f n.
Proof.
  intros Hlen Hn. unfold block.
  rewrite substring_skip, substring_join.
  - rewrite (nth_indep _ "" (f 0)) by (rewrite length_map, length_range; lia).
    now rewrite map_nth, nth_range.
  - apply Forall_forall. intros b Hb. apply in_map_iff in Hb.
    destruct Hb as (k & <- & Hk). apply Hlen. now apply in_range.
  - rewrite length_map, length_range. lia.
Qed.

End Strings.

(** ** The frame encoder *)

Section Encoder.

Lemma fold_left_paint {A} (p : A -> bool) (color : string) (l : list A)
    (acc : string) :
  fold_left (fun frame n => if p n then frame ++ color else frame ++ "000000")
    l acc
  = acc ++ join (map (fun n => paint color (p n)) l).
Proof.
  rewrite <- fold_left_append. revert acc.
  induction l as [|a l IH]; intros acc; simpl; [reflexivity |].
  rewrite <- IH. unfold paint. now destruct (p a).
Qed.

(** The loop of mode distribute with a modulus that is not zero. *)
Lemma for_each_picked (m : Z) (color : string) (l : list Z) (acc : string) :
  m <> 0 ->
  for_each l
    (fun frame n =>
       (r <- mod_ n m ;;
        if (r =? 1) || (m <? 2)
        then Ret (frame ++ color)
        else Ret (frame ++ "000000"))%outcome) acc
  = Ret (acc ++ join (map (fun n => paint color (picked m n)) l)).
Proof.
  intros Hm. revert acc.
  induction l as [|a l IH]; intros acc; simpl.
  - now rewrite append_empty_r.
  - unfold mod_ at 1. destruct (Z.eqb_spec m 0) as [->|_]; [now elim Hm |].
    unfold picked at 1, paint at 1. simpl.
    destruct ((a mod m =? 1) || (m <? 2)); simpl;
      now rewrite IH, append_assoc.
Qed.

(** ... and with modulus zero: the first LED raises. *)
Lemma for_each_mod_zero (color : string) (a : Z) (l : list Z) (acc : string) :
  for_each (a :: l)
    (fun frame n =>
       (r <- mod_ n 0 ;;
        if (r =? 1) || (0 <? 2)
        then Ret (frame ++ color)
        else Ret (frame ++ "000000"))%outcome) acc
  = Raise ZeroDivisionError.
Proof. reflexivity. Qed.

Lemma range_nonempty (n : Z) : 0 < n -> exists l, range n = 0 :: l.
Proof.
  intros Hn. unfold range.
  destruct (Z.to_nat n) as [|k] eqn:E; [lia |].
  simpl. now eexists.
Qed.

Lemma range_empty (n : Z) : n <= 0 -> range n = [].
Proof.
  intros Hn. unfold range.
  now replace (Z.to_nat n) with 0%nat by lia.
Qed.

Variable cfg : config.

(** The modes "default" and "center" light one run of LEDs. *)
Lemma frame_from_default (hdr : string) (ledsOn totalLeds : Z) (color : string) :
  mode cfg = "default" ->
  frame_from cfg hdr ledsOn totalLeds color
  = Ret (Some (hdr ++ join (map (fun n => paint color (in_run 0 ledsOn n))
                                (range totalLeds)))).
Proof.
  intros Hm. unfold frame_from. rewrite Hm. simpl.
  now rewrite fold_left_paint.
Qed.

Lemma frame_from_center (hdr : string) (ledsOn totalLeds : Z) (color : string) :
  mode cfg = "center" ->
  frame_from cfg hdr ledsOn totalLeds color
  = Ret (Some (hdr ++ join (map (fun n => paint color
                                  (in_run (Z.quot (totalLeds - ledsOn) 2) ledsOn n))
                                (range totalLeds)))).
Proof.
  intros Hm. unfold frame_from. rewrite Hm. simpl.
  now rewrite fold_left_paint.
Qed.

(** On the LEDs there are, the run that starts at the truncated half and
    the run that starts at the floored half are the same. *)
Lemma in_run_quot_floor (ledsOn totalLeds n : Z) :
  0 <= n < totalLeds ->
  in_run (Z.quot (totalLeds - ledsOn) 2) ledsOn n
  = in_run ((totalLeds - ledsOn) / 2) ledsOn n.
Proof.
  intros Hn. unfold in_run.
  destruct (Z_le_gt_dec ledsOn totalLeds) as [Hle|Hgt].
  - now rewrite Z.quot_div_nonneg by lia.
  - assert (Hq : Z.quot (totalLeds - ledsOn) 2 <= 0
                 /\ totalLeds <= Z.quot (totalLeds - ledsOn) 2 + ledsOn).
    { Z.to_euclidean_division_equations. lia. }
    assert (Hf : (totalLeds - ledsOn) / 2 <= 0
                 /\ totalLeds <= (totalLeds - ledsOn) / 2 + ledsOn).
    { Z.to_euclidean_division_equations. lia. }
    transitivity true; [| symmetry];
      apply andb_true_iff; split; (apply Z.leb_le || apply Z.ltb_lt); lia.
Qed.

(** Mode "distribute". *)
Lemma frame_from_distribute_none (hdr : string) (ledsOn totalLeds : Z)
    (color : string) :
  mode cfg = "distribute" -> ledsOn < 1 ->
  frame_from cfg hdr ledsOn totalLeds color = Ret None.
Proof.
  intros Hm Hl. unfold frame_from. rewrite Hm. simpl.
  destruct (Z.ltb_spec ledsOn 1); [reflexivity | lia].
Qed.

Lemma frame_from_distribute (hdr : string) (ledsOn totalLeds : Z)
    (color : string) :
  mode cfg = "distribute" -> 1 <= ledsOn -> ledsOn <= totalLeds \/ totalLeds <= 0 ->
  frame_from cfg hdr ledsOn totalLeds color
  = Ret (Some (hdr ++ join (map (fun n => paint color
                                           (picked (totalLeds / ledsOn) n))
                                (range totalLeds)))).
Proof.
  intros Hm Hl Ht. unfold frame_from. rewrite Hm. simpl.
  destruct (Z.ltb_spec ledsOn 1); [lia |].
  unfold int_truediv. destruct (Z.eqb_spec ledsOn 0); [lia |]. simpl.
  destruct Ht as [Ht|Ht].
  - rewrite Z.quot_div_nonneg by lia.
    rewrite for_each_picked; [reflexivity |].
    assert (1 <= totalLeds / ledsOn) by (apply Z.div_le_lower_bound; lia).
    lia.
  - rewrite (range_empty _ Ht). simpl. now rewrite append_empty_r.
Qed.

Lemma frame_from_distribute_raises (hdr : string) (ledsOn totalLeds : Z)
    (color : string) :
  mode cfg = "distribute" -> 0 < totalLeds < ledsOn ->
  frame_from cfg hdr ledsOn totalLeds color = Raise ZeroDivisionError.
Proof.
  intros Hm Ht. unfold frame_from. rewrite Hm. simpl.
  destruct (Z.ltb_spec ledsOn 1); [lia |].
  unfold int_truediv. destruct (Z.eqb_spec ledsOn 0); [lia |]. simpl.
  rewrite Z.quot_small by lia.
  destruct (range_nonempty totalLeds) as (l & ->); [lia |].
  now rewrite for_each_mod_zero.
Qed.

(** Any other mode: the frame is what it was before the loops. *)
Lemma frame_from_other (hdr : string) (ledsOn totalLeds : Z) (color : string) :
  mode cfg <> "center" -> mode cfg <> "default" -> mode cfg <> "distribute" ->
  frame_from cfg hdr ledsOn totalLeds color = Ret (Some hdr).
Proof.
  intros H1 H2 H3. unfold frame_from.
  apply String.eqb_neq in H1, H2, H3. now rewrite H1, H2, H3.
Qed.

End Encoder.

Section EncoderClaims.

Variable cfg : config.

Lemma in_run_spec (start leds n : Z) :
  in_run start leds n = true <-> start <= n < start + leds.
Proof. unfold in_run. rewrite andb_true_iff, Z.leb_le, Z.ltb_lt. tauto. Qed.

Lemma picked_spec (m n : Z) :
  picked m n = true <-> n mod m = 1 \/ m < 2.
Proof. unfold picked. now rewrite orb_true_iff, Z.eqb_eq, Z.ltb_lt. Qed.

Lemma length_paint (color : string) (b : bool) :
  String.length color = 6%nat -> String.length (paint color b) = 6%nat.
Proof. now destruct b. Qed.

Lemma all_hex_paint (color : string) (b : bool) :
  all_hex color = true -> all_hex (paint color b) = true.
Proof. now destruct b. Qed.

Lemma all_hex_header (p : string) : all_hex (_header p) = true.
Proof. unfold _header. now destruct (p =? "drgb")%string. Qed.

(** The blocks of a frame that holds one painted piece per LED. *)
Lemma block_painted (hdr color : string) (p : Z -> bool) (total n : Z) :
  String.length color = 6%nat -> 0 <= n < total ->
  block hdr (hdr ++ join (map (fun k => paint color (p k)) (range total))) n
  = paint color (p n).
Proof.
  intros Hc Hn.
  apply (block_join hdr (fun k => paint color (p k))); [| exact Hn].
  intros k _. now apply length_paint.
Qed.

(** C1 -- In mode "default", for [0 <= ledsOn <= totalLeds] and a colour of
    six hexadecimal digits, the encoder returns a string of hexadecimal
    digits, as long as the header plus six characters per LED, whose
    blocks 0 .. ledsOn-1 are the colour and whose other blocks are
    "000000". *)
Theorem C1_default_frame (p : string) (ledsOn totalLeds : Z) (c : string) :
  mode cfg = "default" ->
  0 <= ledsOn <= totalLeds ->
  String.length c = 6%nat -> all_hex c = true ->
  exists frame,
    _frame cfg p ledsOn totalLeds c = Ret (Some frame)
    /\ all_hex frame = true
    /\ Z.of_nat (String.length frame)
       = Z.of_nat (String.length (_header p)) + 6 * totalLeds
    /\ (forall n, 0 <= n < ledsOn -> block (_header p) frame n = c)
    /\ (forall n, ledsOn <= n < totalLeds ->
          block (_header p) frame n = "000000").
Proof.
  intros Hm Hl Hc Hx. eexists. split.
  { unfold _frame. now apply frame_from_default. }
  split; [| split; [| split]].
  - rewrite all_hex_append, all_hex_header. simpl.
    apply all_hex_join, Forall_forall. intros b Hb.
    apply in_map_iff in Hb. destruct Hb as (k & <- & _).
    now apply all_hex_paint.
  - rewrite length_append, (@length_join _ 6%nat).
    + rewrite length_map, length_range. lia.
    + apply Forall_forall. intros b Hb.
      apply in_map_iff in Hb. destruct Hb as (k & <- & _).
      now apply length_paint.
  - intros n Hn. rewrite block_painted by (trivial; lia).
    replace (in_run 0 ledsOn n) with true; [reflexivity |].
    symmetry. apply in_run_spec. lia.
  - intros n Hn. rewrite block_painted by (trivial; lia).
    replace (in_run 0 ledsOn n) with false; [reflexivity |].
    symmetry. apply not_true_is_false. rewrite in_run_spec. lia.
Qed.

(** C2 -- In mode "center", for all integers [ledsOn] and [totalLeds]
    whose difference a double holds exactly (at most 2^53 in magnitude, so
    that the code's float quotient is the exact half), the encoder lights
    exactly the LEDs [n] with [start <= n < start + ledsOn] where [start]
    is the floor of [(totalLeds - ledsOn) / 2]; when [ledsOn > totalLeds]
    that start is negative and is used as it is, so every LED is lit. *)
Theorem C2_center_run (p : string) (ledsOn totalLeds : Z) (c : string) :
  mode cfg = "center" ->
  float_exact (totalLeds - ledsOn) = true ->
  let start := (totalLeds - ledsOn) / 2 in
  exists frame,
    _frame cfg p ledsOn totalLeds c = Ret (Some frame)
    /\ frame = _header p
               ++ join (map (fun n => paint c (in_run start ledsOn n))
                            (range totalLeds))
    /\ (String.length c = 6%nat ->
        forall n, 0 <= n < totalLeds ->
          (start <= n < start + ledsOn -> block (_header p) frame n = c)
          /\ (~ start <= n < start + ledsOn ->
              block (_header p) frame n = "000000"))
    /\ (totalLeds < ledsOn ->
        start < 0
        /\ forall n, 0 <= n < totalLeds -> start <= n < start + ledsOn).
Proof.
  intros Hm _ start.
  assert (E : _frame cfg p ledsOn totalLeds c
              = Ret (Some (_header p
                 ++ join (map (fun n => paint c (in_run start ledsOn n))
                              (range totalLeds))))).
  { unfold _frame. rewrite frame_from_center by assumption.
    do 4 f_equal. apply map_ext_in. intros n Hn.
    apply in_range in Hn. unfold start.
    now rewrite in_run_quot_floor. }
  eexists. split; [exact E |]. split; [reflexivity |]. split.
  - intros Hc n Hn. rewrite block_painted by trivial. split; intros H.
    + apply in_run_spec in H. now rewrite H.
    + rewrite <- in_run_spec in H. apply not_true_is_false in H.
      now rewrite H.
  - intros Hgt. subst start. split.
    + Z.to_euclidean_division_equations. lia.
    + intros n Hn. Z.to_euclidean_division_equations. lia.
Qed.

(** C3 -- In mode "distribute": no frame when [ledsOn < 1]; for
    [1 <= ledsOn <= totalLeds], with [m] the floor of [totalLeds / ledsOn],
    LED [n] gets the colour exactly when [n mod m = 1] or [m < 2]; but for
    [0 < totalLeds < ledsOn], where [m] is 0, the encoder raises
    [ZeroDivisionError] at [n % m] and lights nothing.  With no LED at all
    the frame is the header. *)
Theorem C3_distribute (p : string) (ledsOn totalLeds : Z) (c : string) :
  mode cfg = "distribute" ->
  (ledsOn < 1 -> _frame cfg p ledsOn totalLeds c = Ret None)
  /\ (1 <= ledsOn <= totalLeds ->
      let m := totalLeds / ledsOn in
      exists frame,
        _frame cfg p ledsOn totalLeds c = Ret (Some frame)
        /\ frame = _header p
                   ++ join (map (fun n => paint c (picked m n))
                                (range totalLeds))
        /\ (String.length c = 6%nat ->
            forall n, 0 <= n < totalLeds ->
              (n mod m = 1 \/ m < 2 -> block (_header p) frame n = c)
              /\ (~ (n mod m = 1 \/ m < 2) ->
                  block (_header p) frame n = "000000")))
  /\ (0 < totalLeds < ledsOn ->
      totalLeds / ledsOn = 0
      /\ _frame cfg p ledsOn totalLeds c = Raise ZeroDivisionError)
  /\ (1 <= ledsOn -> totalLeds <= 0 ->
      _frame cfg p ledsOn totalLeds c = Ret (Some (_header p))).
Proof.
  intros Hm. split; [| split; [| split]].
  - intros Hl. unfold _frame. now apply frame_from_distribute_none.
  - intros Hl m. eexists. split.
    { unfold _frame. apply frame_from_distribute; [assumption | lia | lia]. }
    split; [reflexivity |].
    intros Hc n Hn. rewrite block_painted by trivial. fold m. split; intros H.
    + apply picked_spec in H. now rewrite H.
    + rewrite <- picked_spec in H. apply not_true_is_false in H.
      now rewrite H.
  - intros Ht. split; [apply Z.div_small; lia |].
    unfold _frame. now apply frame_from_distribute_raises.
  - intros Hl Ht. unfold _frame.
    rewrite frame_from_distribute by (trivial; lia).
    rewrite (range_empty _ Ht). simpl. now rewrite append_empty_r.
Qed.

End EncoderClaims.

Lemma C1_default_frame_sample :
  exists frame,
    _frame (Sample.strip "default" 4) "drgb" 2 4 "aabbcc" = Ret (Some frame)
    /\ all_hex frame = true
    /\ Z.of_nat (String.length frame)
       = Z.of_nat (String.length (_header "drgb")) + 6 * 4
    /\ (forall n, 0 <= n < 2 -> block (_header "drgb") frame n = "aabbcc")
    /\ (forall n, 2 <= n < 4 -> block (_header "drgb") frame n = "000000").
Proof.
  apply (C1_default_frame (Sample.strip "default" 4) "drgb" 2 4 "aabbcc");
    [reflexivity | lia | reflexivity | reflexivity].
Defined.

(** The example of the specification: 100 LEDs, 24 on, start 38. *)
Lemma C2_center_run_sample :
  float_exact (100 - 24) = true
  /\ exists frame,
       _frame (Sample.strip "center" 100) "drgb" 24 100 "aabbcc"
       = Ret (Some frame)
       /\ forall n, 0 <= n < 100 ->
            (38 <= n < 38 + 24 -> block (_header "drgb") frame n = "aabbcc")
            /\ (~ 38 <= n < 38 + 24 ->
                block (_header "drgb") frame n = "000000").
Proof.
  split; [reflexivity |].
  destruct (C2_center_run (Sample.strip "center" 100) "drgb" 24 100 "aabbcc"
              eq_refl eq_refl) as (frame & E & _ & Hb & _).
  exists frame. split; [exact E |].
  intros n Hn. exact (Hb eq_refl n Hn).
Defined.

(** A strip of 10 LEDs at the initial 23. *)
Lemma C3_distribute_sample :
  10 / 23 = 0
  /\ _frame (Sample.strip "distribute" 10) "drgb" 23 10 "aabbcc"
     = Raise ZeroDivisionError.
Proof.
  exact (proj1 (proj2 (proj2 (C3_distribute (Sample.strip "distribute" 10)
                                "drgb" 23 10 "aabbcc" eq_refl)))
           ltac:(lia)).
Defined.

(** ** The header *)

Section Header.

Variable cfg : config.

Lemma fold_left_paint_prefix {A} (p : A -> bool) (color hdr : string)
    (l : list A) :
  fold_left (fun frame n => if p n then frame ++ color else frame ++ "000000")
    l hdr
  = hdr ++ fold_left
             (fun frame n => if p n then frame ++ color else frame ++ "000000")
             l "".
Proof. now rewrite !fold_left_paint. Qed.

Lemma for_each_prefix (m : Z) (color hdr : string) (l : list Z) (acc : string) :
  for_each l
    (fun frame n =>
       (r <- mod_ n m ;;
        if (r =? 1) || (m <? 2)
        then Ret (frame ++ color)
        else Ret (frame ++ "000000"))%outcome) (hdr ++ acc)
  = omap (append hdr)
      (for_each l
         (fun frame n =>
            (r <- mod_ n m ;;
             if (r =? 1) || (m <? 2)
             then Ret (frame ++ color)
             else Ret (frame ++ "000000"))%outcome) acc).
Proof.
  revert acc. induction l as [|a l IH]; intros acc; simpl; [reflexivity |].
  destruct (mod_ a m) as [r|e]; simpl; [| reflexivity].
  destruct ((r =? 1) || (m <? 2)); simpl; now rewrite append_assoc, IH.
Qed.

(** The header is a prefix that the rest of [_frame] never looks at. *)
Lemma frame_from_header (hdr : string) (ledsOn totalLeds : Z) (c : string) :
  frame_from cfg hdr ledsOn totalLeds c
  = omap (option_map (append hdr)) (frame_from cfg "" ledsOn totalLeds c).
Proof.
  unfold frame_from.
  destruct (mode cfg =? "center")%string; simpl.
  - now rewrite fold_left_paint_prefix.
  - destruct (mode cfg =? "default")%string; simpl.
    + now rewrite fold_left_paint_prefix.
    + destruct (mode cfg =? "distribute")%string; simpl.
      * destruct (ledsOn <? 1); [reflexivity |].
        destruct (int_truediv totalLeds ledsOn) as [m|e]; simpl;
          [| reflexivity].
        rewrite <- (append_empty_r hdr) at 1. rewrite for_each_prefix.
        now destruct (for_each _ _ _).
      * now rewrite append_empty_r.
Qed.

(** C7 -- Whatever the mode, the colour and the LED counts: the frame for
    protocol "drgb" is "02FF" followed by the frame for any other
    protocol, so it begins with the digits 02 and FF, which decode to the
    bytes 0x02 and 0xFF; the frame for any other protocol carries no
    header and is the body alone. *)
Theorem C7_header (p : string) (ledsOn totalLeds : Z) (c : string) :
  p <> "drgb" ->
  _header "drgb" = "02FF"
  /\ fromhex (Some (_header "drgb")) = Ret [x02; xff]
  /\ _header p = ""
  /\ _frame cfg p ledsOn totalLeds c = frame_from cfg "" ledsOn totalLeds c
  /\ _frame cfg "drgb" ledsOn totalLeds c
     = omap (option_map (append "02FF")) (_frame cfg p ledsOn totalLeds c)
  /\ (forall f, _frame cfg "drgb" ledsOn totalLeds c = Ret (Some f) ->
        prefix "02FF" f = true
        /\ forall data, fromhex (Some f) = Ret data ->
             exists rest, data = x02 :: xff :: rest).
Proof.
  intros Hp.
  assert (Hh : _header p = "").
  { unfold _header. apply String.eqb_neq in Hp. now rewrite Hp. }
  assert (Hb : _frame cfg p ledsOn totalLeds c
               = frame_from cfg "" ledsOn totalLeds c).
  { unfold _frame. now rewrite Hh. }
  assert (Hd : _frame cfg "drgb" ledsOn totalLeds c
               = omap (option_map (append "02FF"))
                   (_frame cfg p ledsOn totalLeds c)).
  { rewrite Hb. unfold _frame. now rewrite frame_from_header. }
  do 5 (split; [trivial |]).
  intros f Hf. rewrite Hd in Hf.
  destruct (_frame cfg p ledsOn totalLeds c) as [[b|]|e];
    simpl in Hf; try discriminate.
  injection Hf as <-. split; [apply (prefix_append "02FF") |].
  intros data Hdata. simpl in Hdata.
  destruct (fromhex_str b) as [rest|e]; simpl in Hdata; try discriminate.
  injection Hdata as <-. now exists rest.
Qed.

End Header.

Lemma C7_header_sample :
  _frame (Sample.strip "default" 2) "drgb" 1 2 "aabbcc"
  = omap (option_map (append "02FF"))
      (_frame (Sample.strip "default" 2) "rgb" 1 2 "aabbcc").
Proof.
  exact (proj1 (proj2 (proj2 (proj2 (proj2
           (C7_header (Sample.strip "default" 2) "rgb" 1 2 "aabbcc"
              ltac:(discriminate))))))).
Defined.

(** ** The send operation *)

Section Handlers.

Variable cfg : config.
Variable py3 : host.

Lemma send_frame_run (w : world) :
  _send_frame cfg py3 w
  = match frame_of cfg (self w) with
    | Ret msg => (w, transport py3 msg, Ret tt)
    | Raise e => (w, [], Raise e)
    end.
Proof.
  unfold _send_frame, frame_of, transport. run.
  destruct (_frame cfg (proto cfg) (leds (self w)) (leds_total cfg)
              (color (self w))) as [msg|e]; simpl; [| reflexivity].
  destruct (fromhex msg) as [data|e]; simpl; [| reflexivity].
  now destruct (sendto_raises py3 data).
Qed.

Lemma emitted_transport (msg : option string) :
  emitted (transport py3 msg)
  = match msg with Some f => [f] | None => [] end.
Proof.
  unfold transport. destruct msg as [f|]; simpl; [| reflexivity].
  destruct (fromhex_str f) as [data|e]; simpl; [| reflexivity].
  now destruct (sendto_raises py3 data).
Qed.

Lemma transmitted_transport (msg : option string) :
  transmitted (transport py3 msg)
  = match fromhex msg with Ret data => [data] | Raise _ => [] end.
Proof.
  unfold transport. simpl.
  destruct (fromhex msg) as [data|e]; simpl; [| reflexivity].
  now destruct (sendto_raises py3 data).
Qed.

(** When the encoder yields no frame. *)
Lemma frame_none_iff (p : string) (ledsOn totalLeds : Z) (c : string) :
  _frame cfg p ledsOn totalLeds c = Ret None
  <-> mode cfg = "distribute" /\ ledsOn < 1.
Proof.
  split.
  - unfold _frame, frame_from.
    destruct (mode cfg =? "center")%string eqn:E1; simpl; [discriminate |].
    destruct (mode cfg =? "default")%string eqn:E2; simpl; [discriminate |].
    destruct (String.eqb_spec (mode cfg) "distribute") as [E3|_];
      [| discriminate].
    destruct (Z.ltb_spec ledsOn 1); [now split |].
    destruct (int_truediv totalLeds ledsOn); simpl; [| discriminate].
    now destruct (for_each _ _ _).
  - intros [Hm Hl]. unfold _frame. now apply frame_from_distribute_none.
Qed.

(** When the encoder yields a frame. *)
Lemma frame_some (p : string) (ledsOn totalLeds : Z) (c : string) :
  mode cfg <> "distribute" \/ 1 <= ledsOn <= totalLeds ->
  exists f, _frame cfg p ledsOn totalLeds c = Ret (Some f).
Proof.
  intros H. unfold _frame.
  destruct (string_dec (mode cfg) "distribute") as [Hd|Hd].
  - destruct H as [H|H]; [contradiction |].
    rewrite frame_from_distribute by (trivial; lia). now eexists.
  - destruct (string_dec (mode cfg) "center") as [Hc|Hc].
    { rewrite frame_from_center by trivial. now eexists. }
    destruct (string_dec (mode cfg) "default") as [Hf|Hf].
    { rewrite frame_from_default by trivial. now eexists. }
    rewrite frame_from_other by trivial. now eexists.
Qed.

(** [_store_state] *)
Lemma store_state_run (w : world) :
  _store_state w
  = (World (self w)
       (Storage (Some (leds (self w))) (Some (color (self w)))
          (Some (color_idx (self w)))),
     [], Ret tt).
Proof. reflexivity. Qed.

(** A handler that ends in [_store_state]. *)
Lemma then_store_run (m : M unit) (w : world) :
  bind m (fun _ => _store_state) w
  = match result_of (m w) with
    | Ret _ =>
        (World (self (world_of (m w)))
           (Storage (Some (leds (self (world_of (m w)))))
              (Some (color (self (world_of (m w)))))
              (Some (color_idx (self (world_of (m w)))))),
         trace_of (m w), Ret tt)
    | Raise e => (world_of (m w), trace_of (m w), Raise e)
    end.
Proof.
  unfold bind. destruct (m w) as [[w1 t1] [[]|e]]; run; [| reflexivity].
  now rewrite app_nil_r.
Qed.

End Handlers.

(** ** The click handler, button by button *)

Section Clicks.

Variable cfg : config.
Variable py3 : host.

Lemma click1_run (w : world) :
  on_click cfg py3 1 w
  = let s := self w in
    let i := if color_idx s + 1 >? ncolors cfg - 1
             then 0 else color_idx s + 1 in
    match getitem (colors cfg) i with
    | Ret c => sent_and_stored cfg py3 (Attrs (leds s) c i) (store w)
    | Raise e => (World (Attrs (leds s) (color s) i) (store w), [], Raise e)
    end.
Proof.
  unfold on_click, sent_and_stored, stored. run.
  destruct (color_idx (self w) + 1 >? ncolors cfg - 1); simpl;
    (destruct (getitem (colors cfg) _) as [c|e]; simpl; [| reflexivity]);
    rewrite send_frame_run; simpl;
    destruct (frame_of cfg _) as [msg|e]; simpl; now rewrite ?app_nil_r.
Qed.

Lemma click3_run (w : world) :
  on_click cfg py3 3 w
  = let s := self w in
    match frame_of cfg (Attrs (leds s) "000000" (color_idx s)) with
    | Ret msg =>
        (World (Attrs (leds s) (COLOR_GOOD py3) (color_idx s))
           (stored (Attrs (leds s) (COLOR_GOOD py3) (color_idx s))),
         transport py3 msg, Ret tt)
    | Raise e =>
        (World (Attrs (leds s) "000000" (color_idx s)) (store w), [],
         Raise e)
    end.
Proof.
  unfold on_click, stored. run. rewrite send_frame_run; simpl.
  destruct (frame_of cfg _) as [msg|e]; simpl; now rewrite ?app_nil_r.
Qed.

Lemma click4_run (w : world) :
  on_click cfg py3 4 w
  = let s := self w in
    if leds s <? leds_total cfg
    then sent_and_stored cfg py3 (Attrs (leds s + 1) (color s) (color_idx s))
           (store w)
    else (World s (stored s), [], Ret tt).
Proof.
  unfold on_click, sent_and_stored, stored. run.
  destruct (leds (self w) <? leds_total cfg); simpl; [| reflexivity].
  rewrite send_frame_run; simpl.
  destruct (frame_of cfg _) as [msg|e]; simpl; now rewrite ?app_nil_r.
Qed.

Lemma click5_run (w : world) :
  on_click cfg py3 5 w
  = let s := self w in
    if leds s >? 0
    then sent_and_stored cfg py3 (Attrs (leds s - 1) (color s) (color_idx s))
           (store w)
    else (World s (stored s), [], Ret tt).
Proof.
  unfold on_click, sent_and_stored, stored. run.
  destruct (leds (self w) >? 0); simpl; [| reflexivity].
  rewrite send_frame_run; simpl.
  destruct (frame_of cfg _) as [msg|e]; simpl; now rewrite ?app_nil_r.
Qed.

Lemma click_other_run (button : Z) (w : world) :
  ~ 1 <= button <= 5 ->
  on_click cfg py3 button w = (World (self w) (stored (self w)), [], Ret tt).
Proof.
  intros Hb. unfold on_click, stored.
  destruct (Z.eqb_spec button 1); [lia |].
  destruct (Z.eqb_spec button 2); [lia |].
  destruct (Z.eqb_spec button 3); [lia |].
  destruct (Z.eqb_spec button 4); [lia |].
  destruct (Z.eqb_spec button 5); [lia |].
  reflexivity.
Qed.

Lemma click2_run (w : world) :
  on_click cfg py3 2 w
  = match picker py3 (color_picker cfg) with
    | Some lines =>
        bind (for_ lines (picked_line cfg py3)) (fun _ => _store_state) w
    | None => (w, [], Raise (spawn_error py3 (color_picker cfg)))
    end.
Proof.
  unfold on_click, _run_color_picker. simpl.
  destruct (picker py3 (color_picker cfg)) as [lines|]; [| reflexivity].
  unfold bind at 1 2. simpl. fold (picked_line cfg py3).
  unfold bind at 1.
  now destruct (for_ lines (picked_line cfg py3) w) as [[w1 t1] [[]|e]].
Qed.

Lemma picked_line_run (c : string) (w : world) :
  picked_line cfg py3 c w
  = let s := Attrs (leds (self w)) (rstrip_nl c) (color_idx (self w)) in
    match frame_of cfg s with
    | Ret msg =>
        (World s (store w),
         Log (rstrip_nl c) None LOG_INFO
           :: (transport py3 msg ++ [Update])%list,
         Ret tt)
    | Raise e =>
        (World s (store w), [Log (rstrip_nl c) None LOG_INFO], Raise e)
    end.
Proof.
  unfold picked_line. run. rewrite send_frame_run; simpl.
  destruct (frame_of cfg _) as [msg|e]; simpl; now rewrite ?app_nil_r.
Qed.

(** The loop assigns [color] only, and nothing in the store. *)
Lemma picker_loop_keeps (lines : list string) (w : world) :
  let w' := world_of (for_ lines (picked_line cfg py3) w) in
  leds (self w') = leds (self w)
  /\ color_idx (self w') = color_idx (self w)
  /\ store w' = store w.
Proof.
  revert w. induction lines as [|c lines IH]; intros w.
  - now run.
  - change (for_ (c :: lines) (picked_line cfg py3) w)
      with (bind (picked_line cfg py3 c)
              (fun _ => for_ lines (picked_line cfg py3)) w).
    unfold bind. rewrite picked_line_run. simpl.
    destruct (frame_of cfg _) as [msg|e]; [| now run].
    specialize (IH (World (Attrs (leds (self w)) (rstrip_nl c)
                             (color_idx (self w))) (store w))).
    unfold world_of in *. simpl in IH.
    destruct (for_ lines (picked_line cfg py3) _) as [[w1 t1] r1]. exact IH.
Qed.

End Clicks.

(** ** Decoding a frame *)

Section Decoding.

(** Strings by pairs of characters. *)
Lemma string_pair_ind (P : string -> Prop) :
  P "" ->
  (forall c, P (String c "")) ->
  (forall c d r, P r -> P (String c (String d r))) ->
  forall s, P s.
Proof.
  intros H0 H1 H2 s.
  assert (H : P s /\ forall c, P (String c s)).
  { induction s as [|x s [IHs IHc]].
    - split; [exact H0 | exact H1].
    - split; [apply IHc |]. intros c. now apply H2. }
  apply H.
Qed.

Lemma hex_not_space (c : ascii) (h : N) :
  hexval c = Some h -> is_space c = false.
Proof.
  unfold hexval, is_space. set (n := N_of_ascii c). intros H.
  destruct (N.leb_spec 48 n), (N.leb_spec n 57), (N.leb_spec 97 n),
    (N.leb_spec n 102), (N.leb_spec 65 n), (N.leb_spec n 70);
    simpl in H; try discriminate;
    destruct (N.eqb_spec n 32), (N.leb_spec 9 n), (N.leb_spec n 13);
    simpl; trivial; lia.
Qed.

(** A string of hexadecimal digits of even length decodes, to half as
    many bytes, and what follows it decodes on its own. *)
Lemma fromhex_hex (a : string) :
  all_hex a = true -> Nat.even (String.length a) = true ->
  exists d,
    fromhex_str a = Ret d
    /\ String.length a = (2 * List.length d)%nat
    /\ forall b, fromhex_str (a ++ b) = omap (app d) (fromhex_str b).
Proof.
  induction a as [|c|c d r IH] using string_pair_ind; intros Hx He.
  - exists []. repeat split. intros b. simpl. now destruct (fromhex_str b).
  - discriminate.
  - simpl in Hx. unfold is_hexdigit in Hx.
    destruct (hexval c) as [hi|] eqn:Ec; [| discriminate].
    destruct (hexval d) as [lo|] eqn:Ed; [| discriminate].
    simpl in Hx, He. destruct (IH Hx He) as (bytes & Hr & Hlen & Happ).
    exists (mkbyte hi lo :: bytes).
    assert (Hs : is_space c = false) by now apply (hex_not_space c hi).
    split; [| split].
    + simpl. now rewrite Hs, Ec, Ed, Hr.
    + simpl. lia.
    + intros b. simpl. rewrite Hs, Ec, Ed, Happ.
      now destruct (fromhex_str b).
Qed.

(** The bytes of a painted strip. *)
Lemma fromhex_painted (c : string) (rgb : list byte) (q : Z -> bool)
    (l : list Z) :
  (forall b, fromhex_str (c ++ b) = omap (app rgb) (fromhex_str b)) ->
  fromhex_str (join (map (fun n => paint c (q n)) l))
  = Ret (List.concat (map (fun n => if q n then rgb else dark) l)).
Proof.
  intros Hc.
  assert (Hz : forall b,
             fromhex_str ("000000" ++ b) = omap (app dark) (fromhex_str b)).
  { intros b. simpl. now destruct (fromhex_str b). }
  induction l as [|n l IH]; [reflexivity |].
  cbn [map join List.concat]. unfold paint at 1.
  destruct (q n); [rewrite Hc | rewrite Hz]; now rewrite IH.
Qed.

Lemma length_concat_three (rgb : list byte) (q : Z -> bool) (l : list Z) :
  List.length rgb = 3%nat ->
  List.length (List.concat (map (fun n => if q n then rgb else dark) l))
  = (3 * List.length l)%nat.
Proof.
  intros H3. induction l as [|n l IH]; simpl; [reflexivity |].
  rewrite length_app, IH. destruct (q n); [rewrite H3 | simpl]; lia.
Qed.

Variable cfg : config.
Variable py3 : host.

(** The three ways [_frame] can end in mode "distribute". *)
Lemma distribute_cases (ledsOn totalLeds : Z) :
  ledsOn < 1
  \/ (1 <= ledsOn /\ (ledsOn <= totalLeds \/ totalLeds <= 0))
  \/ 0 < totalLeds < ledsOn.
Proof. lia. Qed.

(** In the three named modes a frame is the header and one painted block
    per LED. *)
Lemma frame_painted (p : string) (ledsOn totalLeds : Z) (c f : string) :
  mode cfg = "default" \/ mode cfg = "center" \/ mode cfg = "distribute" ->
  _frame cfg p ledsOn totalLeds c = Ret (Some f) ->
  exists q : Z -> bool,
    f = _header p ++ join (map (fun n => paint c (q n)) (range totalLeds)).
Proof.
  unfold _frame. intros [Hm|[Hm|Hm]] Hf.
  - rewrite frame_from_default in Hf by trivial. injection Hf as <-.
    now eexists.
  - rewrite frame_from_center in Hf by trivial. injection Hf as <-.
    now eexists.
  - destruct (distribute_cases ledsOn totalLeds) as [H|[[H1 H2]|H]].
    + rewrite frame_from_distribute_none in Hf by trivial. discriminate.
    + rewrite frame_from_distribute in Hf by trivial. injection Hf as <-.
      now eexists.
    + rewrite frame_from_distribute_raises in Hf by trivial. discriminate.
Qed.

(** The bytes of a header followed by a painted strip. *)
Lemma painted_bytes (p c : string) (rgb : list byte) (q : Z -> bool)
    (total : Z) :
  (forall b, fromhex_str (c ++ b) = omap (app rgb) (fromhex_str b)) ->
  fromhex (Some (_header p
                 ++ join (map (fun n => paint c (q n)) (range total))))
  = Ret ((if (p =? "drgb")%string then [x02; xff] else [])
         ++ List.concat (map (fun n => if q n then rgb else dark)
                           (range total)))%list.
Proof.
  intros Happ. unfold fromhex, _header.
  destruct (p =? "drgb")%string; simpl;
    now rewrite (fromhex_painted c rgb q _ Happ).
Qed.

Lemma length_painted_bytes (p : string) (rgb : list byte) (q : Z -> bool)
    (total : Z) :
  List.length rgb = 3%nat ->
  Z.of_nat (List.length
              ((if (p =? "drgb")%string then [x02; xff] else [])
               ++ List.concat (map (fun n => if q n then rgb else dark)
                                 (range total)))%list)
  = (if (p =? "drgb")%string then 2 else 0) + 3 * Z.max 0 total.
Proof.
  intros H3.
  rewrite length_app, (length_concat_three rgb q _ H3), length_range.
  destruct (p =? "drgb")%string; simpl List.length; lia.
Qed.

(** The bytes of a header. *)
Lemma header_bytes (p : string) :
  fromhex (Some (_header p))
  = Ret (if (p =? "drgb")%string then [x02; xff] else []).
Proof. unfold _header. now destruct (p =? "drgb")%string. Qed.

(** A mode is one of the three the encoder names, or none of them. *)
Lemma mode_cases :
  (mode cfg = "default" \/ mode cfg = "center" \/ mode cfg = "distribute")
  \/ (mode cfg <> "center" /\ mode cfg <> "default"
      /\ mode cfg <> "distribute").
Proof.
  destruct (string_dec (mode cfg) "default"),
    (string_dec (mode cfg) "center"),
    (string_dec (mode cfg) "distribute"); tauto.
Qed.

(** A frame in a colour of six hexadecimal digits decodes. *)
Lemma frame_decodes (p : string) (ledsOn totalLeds : Z) (c f : string) :
  all_hex c = true -> String.length c = 6%nat ->
  _frame cfg p ledsOn totalLeds c = Ret (Some f) ->
  exists data, fromhex (Some f) = Ret data.
Proof.
  intros Hx Hc Hf. destruct mode_cases as [Hm|(H1 & H2 & H3)].
  - destruct (fromhex_hex c Hx) as (rgb & _ & _ & Happ);
      [now rewrite Hc |].
    destruct (frame_painted _ _ _ _ _ Hm Hf) as (q & ->).
    eexists. now apply painted_bytes.
  - unfold _frame in Hf. rewrite frame_from_other in Hf by trivial.
    injection Hf as <-. eexists. apply header_bytes.
Qed.

(** The frame for the colour "000000" and its bytes, in the three named
    modes. *)
Lemma frame_off_bytes (p : string) (ledsOn totalLeds : Z) (f : string) :
  mode cfg = "default" \/ mode cfg = "center" \/ mode cfg = "distribute" ->
  _frame cfg p ledsOn totalLeds "000000" = Ret (Some f) ->
  f = _header p ++ join (map (fun _ => "000000") (range totalLeds))
  /\ fromhex (Some f)
     = Ret ((if (p =? "drgb")%string then [x02; xff] else [])
            ++ List.concat (map (fun _ => dark) (range totalLeds)))%list.
Proof.
  intros Hm Hf. destruct (frame_painted _ _ _ _ _ Hm Hf) as (q & ->).
  assert (Happ : forall b,
             fromhex_str ("000000" ++ b) = omap (app dark) (fromhex_str b)).
  { intros b. simpl. now destruct (fromhex_str b). }
  split.
  - do 2 f_equal. apply map_ext. intros n. now destruct (q n).
  - rewrite (painted_bytes p "000000" dark q totalLeds Happ).
    do 3 f_equal. apply map_ext. intros n. now destruct (q n).
Qed.

(** The trace of the [try] statement, by what the decoder does. *)
Lemma transport_sent (msg : option string) (data : list byte) :
  fromhex msg = Ret data ->
  transport py3 msg = sent py3 msg data
  /\ transmitted (transport py3 msg) = [data].
Proof.
  intros H. unfold transport, sent. rewrite H. split; [reflexivity |].
  simpl. now destruct (sendto_raises py3 data).
Qed.

Lemma transport_rejected (msg : option string) (e : exn) :
  fromhex msg = Raise e ->
  transport py3 msg = rejected msg e
  /\ transmitted (transport py3 msg) = [].
Proof. intros H. unfold transport, rejected. now rewrite H. Qed.

(** What a branch that sends leaves in the trace and on the socket. *)
Lemma sent_and_stored_socket (s : attrs) (st : storage) :
  let r := sent_and_stored cfg py3 s st in
  (forall f data,
     frame_of cfg s = Ret (Some f) -> fromhex (Some f) = Ret data ->
     trace_of r = sent py3 (Some f) data /\ transmitted (trace_of r) = [data])
  /\ (forall f e,
        frame_of cfg s = Ret (Some f) -> fromhex (Some f) = Raise e ->
        trace_of r = rejected (Some f) e /\ transmitted (trace_of r) = [])
  /\ (frame_of cfg s = Ret None ->
      trace_of r = rejected None TypeError
      /\ transmitted (trace_of r) = []).
Proof.
  unfold sent_and_stored, trace_of.
  destruct (frame_of cfg s) as [msg|e0]; cbn [fst snd].
  - split; [| split].
    + intros f data [= ->] Hd. now apply transport_sent.
    + intros f e [= ->] He. now apply transport_rejected.
    + intros [= ->]. now apply transport_rejected.
  - split; [| split]; intros; discriminate.
Qed.

End Decoding.

Section ClickClaims.

Variable cfg : config.
Variable py3 : host.

Lemma getitem_in_range {A} (l : list A) (i : Z) :
  0 <= i < Z.of_nat (List.length l) ->
  exists a, getitem l i = Ret a /\ nth_error l (Z.to_nat i) = Some a.
Proof.
  intros Hi. unfold getitem.
  destruct (Z.ltb_spec i 0); [lia |].
  destruct (Z.ltb_spec i 0); [lia |].
  destruct (Z.leb_spec (Z.of_nat (List.length l)) i); [lia |]. simpl.
  destruct (nth_error l (Z.to_nat i)) as [a|] eqn:E; [now exists a |].
  apply nth_error_None in E. lia.
Qed.

Lemma sent_and_stored_spec (s : attrs) (st : storage) :
  let r := sent_and_stored cfg py3 s st in
  self (world_of r) = s
  /\ (forall f, frame_of cfg s = Ret (Some f) ->
        emitted (trace_of r) = [f] /\ result_of r = Ret tt
        /\ store (world_of r) = stored s)
  /\ (frame_of cfg s = Ret None ->
        emitted (trace_of r) = [] /\ result_of r = Ret tt
        /\ store (world_of r) = stored s).
Proof.
  unfold sent_and_stored, world_of, trace_of, result_of.
  destruct (frame_of cfg s) as [msg|e]; cbn [fst snd self store].
  - split; [reflexivity |]. split.
    + intros f [= ->]. now rewrite emitted_transport.
    + intros [= ->]. now rewrite emitted_transport.
  - split; [reflexivity |]. split; [intros f | ]; discriminate.
Qed.

(** The index after a click on button 1, whatever the outcome. *)
Lemma click1_index (w : world) :
  color_idx (self (world_of (on_click cfg py3 1 w)))
  = if color_idx (self w) + 1 >? ncolors cfg - 1
    then 0 else color_idx (self w) + 1.
Proof.
  rewrite click1_run. simpl.
  destruct (getitem (colors cfg) _) as [c|e]; [| reflexivity].
  now rewrite (proj1 (sent_and_stored_spec _ _)).
Qed.

Lemma next_index (n i : Z) :
  0 <= i <= n - 1 ->
  (if i + 1 >? n - 1 then 0 else i + 1) = (i + 1) mod n.
Proof.
  intros Hi. destruct (Z.gtb_spec (i + 1) (n - 1)).
  - replace (i + 1) with n by lia. symmetry. apply Z.mod_same. lia.
  - symmetry. apply Z.mod_small. lia.
Qed.

(** C4 -- With [colorIndex] in [0, paletteSize-1], a click on button 1 sets
    [colorIndex] to [(colorIndex + 1) mod paletteSize] and [currentColor]
    to the palette's colour at the new index, and leaves [ledsOn] alone.
    When the encoder yields a frame for the new state and the frame
    decodes from hex, exactly one datagram is put on the socket, the bytes
    of that frame; when the frame does not decode, or the encoder yields
    none, nothing is put on the socket and an error is logged; the click
    returns in each case.  The encoder yields a frame in every mode but
    "distribute" (in mode "center" for a difference of the counts that a
    double holds exactly) and in "distribute" for
    [1 <= ledsOn <= totalLeds], and none in "distribute" with
    [ledsOn < 1]; the frame decodes when the new colour is six
    hexadecimal digits.  From index 0 over a palette of three colours the
    indices run 1, 2, 0, 1. *)
Theorem C4_button1 (w : world) :
  0 <= color_idx (self w) <= ncolors cfg - 1 ->
  let r := on_click cfg py3 1 w in
  let s' := self (world_of r) in
  let i' := (color_idx (self w) + 1) mod ncolors cfg in
  color_idx s' = i'
  /\ getitem (colors cfg) i' = Ret (color s')
  /\ leds s' = leds (self w)
  /\ (forall f data,
        frame_of cfg s' = Ret (Some f) -> fromhex (Some f) = Ret data ->
        trace_of r = sent py3 (Some f) data
        /\ transmitted (trace_of r) = [data]
        /\ emitted (trace_of r) = [f] /\ result_of r = Ret tt)
  /\ (forall f e,
        frame_of cfg s' = Ret (Some f) -> fromhex (Some f) = Raise e ->
        trace_of r = rejected (Some f) e
        /\ transmitted (trace_of r) = []
        /\ emitted (trace_of r) = [f] /\ result_of r = Ret tt)
  /\ (frame_of cfg s' = Ret None ->
        trace_of r = rejected None TypeError
        /\ transmitted (trace_of r) = []
        /\ emitted (trace_of r) = [] /\ result_of r = Ret tt)
  /\ (frame_of cfg s' = Ret None
      <-> mode cfg = "distribute" /\ leds (self w) < 1)
  /\ (mode cfg <> "distribute" \/ 1 <= leds (self w) <= leds_total cfg ->
      (mode cfg = "center" ->
       float_exact (leds_total cfg - leds (self w)) = true) ->
      exists f, frame_of cfg s' = Ret (Some f))
  /\ (all_hex (color s') = true -> String.length (color s') = 6%nat ->
      forall f, frame_of cfg s' = Ret (Some f) ->
        exists data, fromhex (Some f) = Ret data)
  /\ (ncolors cfg = 3 -> color_idx (self w) = 0 ->
      map (fun k => color_idx (self (clicks cfg py3 (repeat 1 k) w)))
        [1; 2; 3; 4]%nat
      = [1; 2; 0; 1]).
Proof.
  intros Hi r s' i'.
  assert (Ei : (if color_idx (self w) + 1 >? ncolors cfg - 1
                then 0 else color_idx (self w) + 1) = i')
    by now apply next_index.
  destruct (@getitem_in_range _ (colors cfg) i') as (c & Hc & _).
  { unfold i'. fold (ncolors cfg).
    apply Z.mod_pos_bound. lia. }
  assert (Er : r = sent_and_stored cfg py3 (Attrs (leds (self w)) c i')
                 (store w)).
  { unfold r. rewrite click1_run. simpl. rewrite Ei. now rewrite Hc. }
  destruct (sent_and_stored_spec (Attrs (leds (self w)) c i') (store w))
    as (Hs & Hsome & Hnone).
  destruct (sent_and_stored_socket cfg py3 (Attrs (leds (self w)) c i')
              (store w)) as (Hsent & Hrej & Hmiss).
  cbn zeta in Hsent, Hrej, Hmiss.
  rewrite <- Er in Hs, Hsome, Hnone, Hsent, Hrej, Hmiss. fold s' in Hs.
  rewrite Hs. cbn [leds color color_idx].
  split; [reflexivity |]. split; [exact Hc |]. split; [reflexivity |].
  split.
  { intros f data Hf Hd. destruct (Hsome f Hf) as (? & ? & _).
    destruct (Hsent f data Hf Hd). repeat split; assumption. }
  split.
  { intros f e Hf He. destruct (Hsome f Hf) as (? & ? & _).
    destruct (Hrej f e Hf He). repeat split; assumption. }
  split.
  { intros Hf. destruct (Hnone Hf) as (? & ? & _).
    destruct (Hmiss Hf). repeat split; assumption. }
  split; [apply frame_none_iff |].
  split; [intros H _; now apply frame_some |].
  split.
  { intros Hx Hl f Hf. now apply (frame_decodes cfg _ _ _ _ _ Hx Hl Hf). }
  intros Hn H0. cbn [map repeat clicks].
  rewrite !click1_index, Hn, H0. reflexivity.
Qed.

End ClickClaims.

(** A palette of hexadecimal colours: the click goes to index 1 and puts
    the frame of the second colour on the socket. *)
Lemma C4_button1_sample :
  0 <= 0 <= 2
  /\ color_idx (self (world_of (on_click (Sample.hex_strip "default" 2)
                                  Sample.quiet 1 (Sample.lit 1 "68D74C")))) = 1
  /\ transmitted (trace_of (on_click (Sample.hex_strip "default" 2)
                              Sample.quiet 1 (Sample.lit 1 "68D74C")))
     = [[x02; xff; xe0; x5b; x22; x00; x00; x00]].
Proof.
  split; [lia |].
  destruct (C4_button1 (Sample.hex_strip "default" 2) Sample.quiet
              (Sample.lit 1 "68D74C") ltac:(cbn; lia))
    as (Hi & _ & _ & Hsent & _).
  split; [exact Hi |].
  exact (proj1 (proj2 (Hsent "02FFE05B22000000"
                         [x02; xff; xe0; x5b; x22; x00; x00; x00]
                         eq_refl eq_refl))).
Defined.

(** Against C4 as stated, two clicks with the index in range that put
    nothing on the socket.  In mode "distribute" with no LED on the encoder
    yields no frame.  With the palette the class ships with, in mode
    "default" with two LEDs on, the frame holds the colour with its "#",
    which the hex decoder rejects.  Both clicks return and log an error. *)
Lemma C4_click_sends_nothing :
  (0 <= color_idx (self (Sample.fresh 0))
     <= ncolors (Sample.strip "distribute" 4) - 1
   /\ on_click (Sample.strip "distribute" 4) Sample.quiet 1 (Sample.fresh 0)
      = (World (Attrs 0 "#E05B22" 1) (stored (Attrs 0 "#E05B22" 1)),
         [Fromhex None;
          Log "Failed to contact light: " (Some TypeError) LOG_ERROR],
         Ret tt)
   /\ transmitted (trace_of (on_click (Sample.strip "distribute" 4)
                               Sample.quiet 1 (Sample.fresh 0))) = [])
  /\ (0 <= color_idx (self (Sample.fresh 2))
        <= ncolors (Sample.strip "default" 4) - 1
      /\ on_click (Sample.strip "default" 4) Sample.quiet 1 (Sample.fresh 2)
         = (World (Attrs 2 "#E05B22" 1) (stored (Attrs 2 "#E05B22" 1)),
            [Fromhex (Some "02FF#E05B22#E05B22000000000000");
             Log "Failed to contact light: " (Some ValueError) LOG_ERROR],
            Ret tt)
      /\ transmitted (trace_of (on_click (Sample.strip "default" 4)
                                  Sample.quiet 1 (Sample.fresh 2))) = []).
Proof.
  split; (split; [cbn; lia | split; reflexivity]).
Qed.

Section CountClaims.

Variable cfg : config.
Variable py3 : host.

Lemma then_store_self (m : M unit) (w : world) :
  self (world_of (bind m (fun _ => _store_state) w)) = self (world_of (m w)).
Proof. rewrite then_store_run. now destruct (result_of (m w)). Qed.

(** Only buttons 4 and 5 assign [leds]. *)
Lemma click_leds (button : Z) (w : world) :
  let l' := leds (self (world_of (on_click cfg py3 button w))) in
  (button = 4 /\ leds (self w) < leds_total cfg /\ l' = leds (self w) + 1)
  \/ (button = 5 /\ 0 < leds (self w) /\ l' = leds (self w) - 1)
  \/ l' = leds (self w).
Proof.
  destruct (Z.eq_dec button 1) as [->|N1].
  { right; right. rewrite click1_run. cbn zeta.
    destruct (getitem (colors cfg) _) as [c|e]; [| reflexivity].
    now rewrite (proj1 (sent_and_stored_spec _ _ _ _)). }
  destruct (Z.eq_dec button 2) as [->|N2].
  { right; right. rewrite click2_run.
    destruct (picker py3 (color_picker cfg)) as [lines|]; [| reflexivity].
    rewrite then_store_self. apply picker_loop_keeps. }
  destruct (Z.eq_dec button 3) as [->|N3].
  { right; right. rewrite click3_run. cbn zeta.
    now destruct (frame_of cfg _). }
  destruct (Z.eq_dec button 4) as [->|N4].
  { rewrite click4_run. cbn zeta.
    destruct (Z.ltb_spec (leds (self w)) (leds_total cfg)).
    - left. rewrite (proj1 (sent_and_stored_spec _ _ _ _)). now cbn.
    - right; right. reflexivity. }
  destruct (Z.eq_dec button 5) as [->|N5].
  { rewrite click5_run. cbn zeta.
    destruct (Z.gtb_spec (leds (self w)) 0).
    - right; left. rewrite (proj1 (sent_and_stored_spec _ _ _ _)).
      cbn. lia.
    - right; right. reflexivity. }
  right; right. rewrite click_other_run by lia. reflexivity.
Qed.

(** What a scroll that changed the count leaves on the socket: the frame
    of the new state [s] went to the decoder; when it decodes, its bytes
    are the one datagram sent; when it does not, nothing is sent and the
    error is logged. *)
Lemma scroll_sends (s : attrs) (st : storage) (f : string) :
  frame_of cfg s = Ret (Some f) ->
  let r := sent_and_stored cfg py3 s st in
  emitted (trace_of r) = [f] /\ result_of r = Ret tt
  /\ (forall data, fromhex (Some f) = Ret data ->
        trace_of r = sent py3 (Some f) data
        /\ transmitted (trace_of r) = [data])
  /\ (forall e, fromhex (Some f) = Raise e ->
        trace_of r = rejected (Some f) e
        /\ transmitted (trace_of r) = [])
  /\ (all_hex (color s) = true -> String.length (color s) = 6%nat ->
      exists data, fromhex (Some f) = Ret data).
Proof.
  intros Hf r.
  destruct (sent_and_stored_spec cfg py3 s st) as (_ & Hsome & _).
  destruct (sent_and_stored_socket cfg py3 s st) as (Hsent & Hrej & _).
  destruct (Hsome f Hf) as (He & Hr & _).
  split; [exact He |]. split; [exact Hr |].
  split; [intros data Hd; now apply Hsent |].
  split; [intros e Hd; now apply Hrej |].
  intros Hx Hl. now apply (frame_decodes cfg _ _ _ _ _ Hx Hl Hf).
Qed.

(** C5 -- [0 <= ledsOn <= totalLeds] is kept by every click.  Button 4 at
    [ledsOn = totalLeds] and button 5 at [ledsOn = 0] leave the state as it
    is and make no call at all.  Otherwise button 4 adds one LED and
    button 5 takes one away, and the frame of the new state goes to the
    sender: when it decodes from hex, which it does for a colour of six
    hexadecimal digits, exactly one datagram is put on the socket, the
    bytes of that frame; when it does not, nothing is put on the socket
    and an error is logged.  In mode "distribute" button 5 at
    [ledsOn = 1] takes the count to 0, for which the encoder yields no
    frame: nothing is put on the socket and an error is logged. *)
Theorem C5_led_count (button : Z) (w : world) :
  0 <= leds (self w) <= leds_total cfg ->
  let r := on_click cfg py3 button w in
  let s := self w in
  let s' := self (world_of r) in
  0 <= leds s' <= leds_total cfg
  /\ (button = 4 -> leds s = leds_total cfg ->
      s' = s /\ trace_of r = [] /\ result_of r = Ret tt)
  /\ (button = 5 -> leds s = 0 ->
      s' = s /\ trace_of r = [] /\ result_of r = Ret tt)
  /\ (button = 4 -> leds s < leds_total cfg ->
      s' = Attrs (leds s + 1) (color s) (color_idx s)
      /\ exists f,
           frame_of cfg s' = Ret (Some f)
           /\ emitted (trace_of r) = [f] /\ result_of r = Ret tt
           /\ (forall data, fromhex (Some f) = Ret data ->
                 trace_of r = sent py3 (Some f) data
                 /\ transmitted (trace_of r) = [data])
           /\ (forall e, fromhex (Some f) = Raise e ->
                 trace_of r = rejected (Some f) e
                 /\ transmitted (trace_of r) = [])
           /\ (all_hex (color s) = true -> String.length (color s) = 6%nat ->
               exists data, fromhex (Some f) = Ret data))
  /\ (button = 5 -> 0 < leds s ->
      s' = Attrs (leds s - 1) (color s) (color_idx s)
      /\ (mode cfg = "distribute" /\ leds s = 1 ->
          frame_of cfg s' = Ret None
          /\ trace_of r = rejected None TypeError
          /\ transmitted (trace_of r) = []
          /\ emitted (trace_of r) = [] /\ result_of r = Ret tt)
      /\ (~ (mode cfg = "distribute" /\ leds s = 1) ->
          exists f,
            frame_of cfg s' = Ret (Some f)
            /\ emitted (trace_of r) = [f] /\ result_of r = Ret tt
            /\ (forall data, fromhex (Some f) = Ret data ->
                  trace_of r = sent py3 (Some f) data
                  /\ transmitted (trace_of r) = [data])
            /\ (forall e, fromhex (Some f) = Raise e ->
                  trace_of r = rejected (Some f) e
                  /\ transmitted (trace_of r) = [])
            /\ (all_hex (color s) = true ->
                String.length (color s) = 6%nat ->
                exists data, fromhex (Some f) = Ret data))).
Proof.
  intros Hl r s s'.
  split.
  { destruct (click_leds button w) as [(_ & H & E)|[(_ & H & E)|E]];
      unfold s'; unfold r; rewrite E; lia. }
  split.
  { intros -> Hmax. unfold s', r. rewrite click4_run. cbn zeta.
    destruct (Z.ltb_spec (leds (self w)) (leds_total cfg)); [unfold s in *; lia |].
    now split. }
  split.
  { intros -> Hmin. unfold s', r. rewrite click5_run. cbn zeta.
    destruct (Z.gtb_spec (leds (self w)) 0); [unfold s in *; lia |].
    now split. }
  split.
  { intros -> Hlt. unfold s', r. rewrite click4_run. cbn zeta.
    destruct (Z.ltb_spec (leds (self w)) (leds_total cfg)); [| unfold s in *; lia].
    destruct (sent_and_stored_spec cfg py3
                (Attrs (leds (self w) + 1) (color (self w))
                   (color_idx (self w))) (store w)) as (Hs & _ & _).
    rewrite Hs. split; [reflexivity |].
    destruct (@frame_some cfg (proto cfg) (leds (self w) + 1) (leds_total cfg)
                (color (self w))) as (f & Hf); [right; lia |].
    exists f. split; [exact Hf |].
    exact (scroll_sends (Attrs (leds (self w) + 1) (color (self w))
                           (color_idx (self w))) (store w) f Hf). }
  intros -> Hgt. unfold s', r. rewrite click5_run. cbn zeta.
  destruct (Z.gtb_spec (leds (self w)) 0); [| unfold s in *; lia].
  destruct (sent_and_stored_spec cfg py3
              (Attrs (leds (self w) - 1) (color (self w))
                 (color_idx (self w))) (store w)) as (Hs & _ & Hnone).
  destruct (sent_and_stored_socket cfg py3
              (Attrs (leds (self w) - 1) (color (self w))
                 (color_idx (self w))) (store w)) as (_ & _ & Hmiss).
  rewrite Hs. split; [reflexivity |]. split.
  - intros (Hm & H1).
    assert (Hf : frame_of cfg (Attrs (leds (self w) - 1) (color (self w))
                                 (color_idx (self w))) = Ret None).
    { apply frame_none_iff. split; [exact Hm |]. cbn. unfold s in *. lia. }
    split; [exact Hf |]. destruct (Hnone Hf) as (? & ? & _).
    destruct (Hmiss Hf). repeat split; assumption.
  - intros Hn.
    destruct (@frame_some cfg (proto cfg) (leds (self w) - 1) (leds_total cfg)
                (color (self w))) as (f & Hf).
    { destruct (string_dec (mode cfg) "distribute") as [Hm|Hm];
        [right | now left].
      assert (leds s <> 1) by (intros E; apply Hn; now split).
      unfold s in *. lia. }
    exists f. split; [exact Hf |].
    exact (scroll_sends (Attrs (leds (self w) - 1) (color (self w))
                           (color_idx (self w))) (store w) f Hf).
Qed.

End CountClaims.

(** One more LED on a strip of two, in a colour of hexadecimal digits:
    both LEDs are in the datagram. *)
Lemma C5_led_count_sample :
  0 <= 1 <= 2
  /\ leds (self (world_of (on_click (Sample.strip "default" 2) Sample.quiet 4
                             (Sample.lit 1 "aabbcc")))) = 2
  /\ transmitted (trace_of (on_click (Sample.strip "default" 2) Sample.quiet 4
                              (Sample.lit 1 "aabbcc")))
     = [[x02; xff; xaa; xbb; xcc; xaa; xbb; xcc]].
Proof.
  split; [lia |].
  destruct (proj1 (proj2 (proj2 (proj2
              (C5_led_count (Sample.strip "default" 2) Sample.quiet 4
                 (Sample.lit 1 "aabbcc") ltac:(cbn; lia)))))
              eq_refl ltac:(cbn; lia))
    as (Hs & f & Hf & _ & _ & Hsent & _).
  split; [exact (f_equal leds Hs) |].
  injection Hf as <-.
  exact (proj2 (Hsent [x02; xff; xaa; xbb; xcc; xaa; xbb; xcc] eq_refl)).
Defined.

(** Against C5 as stated, two scrolls within the strip that change the
    count and put nothing on the socket.  In mode "distribute" with one
    LED on, button 5 takes the count to 0 and the encoder yields no frame.
    In mode "default", in the host's default colour with its "#", button 4
    adds an LED and the hex decoder rejects the frame. *)
Lemma C5_scroll_sends_nothing :
  (0 < leds (self (Sample.fresh 1)) <= leds_total (Sample.strip "distribute" 2)
   /\ on_click (Sample.strip "distribute" 2) Sample.quiet 5 (Sample.fresh 1)
      = (World (Attrs 0 "#00FF00" 0) (stored (Attrs 0 "#00FF00" 0)),
         [Fromhex None;
          Log "Failed to contact light: " (Some TypeError) LOG_ERROR],
         Ret tt)
   /\ transmitted (trace_of (on_click (Sample.strip "distribute" 2)
                               Sample.quiet 5 (Sample.fresh 1))) = [])
  /\ (0 <= leds (self (Sample.fresh 1)) < leds_total (Sample.strip "default" 2)
      /\ on_click (Sample.strip "default" 2) Sample.quiet 4 (Sample.fresh 1)
         = (World (Attrs 2 "#00FF00" 0) (stored (Attrs 2 "#00FF00" 0)),
            [Fromhex (Some "02FF#00FF00#00FF00");
             Log "Failed to contact light: " (Some ValueError) LOG_ERROR],
            Ret tt)
      /\ transmitted (trace_of (on_click (Sample.strip "default" 2)
                                  Sample.quiet 4 (Sample.fresh 1))) = []).
Proof.
  split; (split; [cbn; lia | split; reflexivity]).
Qed.

Section OffAndStore.

Variable cfg : config.
Variable py3 : host.

(** C6 -- A click on button 3 leaves [ledsOn] and [colorIndex] alone.
    When the encoder yields a frame for the colour "000000", which it does
    in every mode but "distribute" (in mode "center" for a difference of
    the counts that a double holds exactly) and in "distribute" for
    [1 <= ledsOn <= totalLeds], that frame decodes and exactly one
    datagram is put on the socket, its bytes: in the three named modes
    the header bytes and three zero bytes per LED.  The click ends with
    [currentColor] at the host's default colour, in the object and in the
    store.  In mode "distribute" with [ledsOn < 1] the encoder yields
    none: nothing is put on the socket, an error is logged, and the colour
    ends at the default all the same. *)
Theorem C6_button3 (w : world) :
  let r := on_click cfg py3 3 w in
  let s := self w in
  let off := frame_of cfg (Attrs (leds s) "000000" (color_idx s)) in
  let s' := Attrs (leds s) (COLOR_GOOD py3) (color_idx s) in
  (leds (self (world_of r)) = leds s
   /\ color_idx (self (world_of r)) = color_idx s)
  /\ (forall f, off = Ret (Some f) ->
      exists data,
        fromhex (Some f) = Ret data
        /\ trace_of r = sent py3 (Some f) data
        /\ transmitted (trace_of r) = [data]
        /\ emitted (trace_of r) = [f] /\ result_of r = Ret tt
        /\ self (world_of r) = s' /\ store (world_of r) = stored s')
  /\ (off = Ret None ->
      trace_of r = rejected None TypeError
      /\ transmitted (trace_of r) = []
      /\ emitted (trace_of r) = [] /\ result_of r = Ret tt
      /\ self (world_of r) = s' /\ store (world_of r) = stored s')
  /\ (off = Ret None <-> mode cfg = "distribute" /\ leds s < 1)
  /\ (mode cfg <> "distribute" \/ 1 <= leds s <= leds_total cfg ->
      (mode cfg = "center" ->
       float_exact (leds_total cfg - leds s) = true) ->
      exists f, off = Ret (Some f))
  /\ (mode cfg = "default" \/ mode cfg = "center"
      \/ mode cfg = "distribute" ->
      forall f, off = Ret (Some f) ->
        f = _header (proto cfg)
            ++ join (map (fun _ => "000000") (range (leds_total cfg)))
        /\ fromhex (Some f)
           = Ret ((if (proto cfg =? "drgb")%string then [x02; xff] else [])
                  ++ List.concat (map (fun _ => dark)
                                    (range (leds_total cfg))))%list).
Proof.
  intros r s off s'.
  assert (Er : r = match off with
                   | Ret msg => (World s' (stored s'), transport py3 msg, Ret tt)
                   | Raise e =>
                       (World (Attrs (leds s) "000000" (color_idx s))
                          (store w), [], Raise e)
                   end)
    by apply click3_run.
  split; [| split; [| split; [| split; [| split]]]].
  - rewrite Er. now destruct off.
  - intros f Hf.
    destruct (frame_decodes cfg (proto cfg) (leds s) (leds_total cfg)
                "000000" f eq_refl eq_refl Hf) as (data & Hd).
    exists data. split; [exact Hd |].
    rewrite Er, Hf. unfold trace_of, result_of, world_of.
    cbn [fst snd self store].
    destruct (transport_sent py3 (Some f) data Hd) as (Ht & Hx).
    rewrite emitted_transport. now repeat split.
  - intros Hf. rewrite Er, Hf. unfold trace_of, result_of, world_of.
    cbn [fst snd self store].
    destruct (transport_rejected py3 None TypeError eq_refl) as (Ht & Hx).
    rewrite emitted_transport. now repeat split.
  - apply frame_none_iff.
  - intros H _. now apply frame_some.
  - intros Hm f Hf. now apply (frame_off_bytes cfg _ _ _ _ Hm Hf).
Qed.

(** C8 -- When the encoder yields no frame, which is the case exactly in
    mode "distribute" with [ledsOn < 1], the send operation puts nothing
    on the socket, raises nothing and changes nothing; the hex decoder
    rejects the missing frame with a [TypeError], which is caught and
    logged at error severity. *)
Theorem C8_no_frame (w : world) :
  frame_of cfg (self w) = Ret None ->
  let r := _send_frame cfg py3 w in
  (mode cfg = "distribute" /\ leds (self w) < 1)
  /\ transmitted (trace_of r) = []
  /\ emitted (trace_of r) = []
  /\ result_of r = Ret tt
  /\ world_of r = w
  /\ trace_of r
     = [Fromhex None;
        Log "Failed to contact light: " (Some TypeError) LOG_ERROR]
  /\ logged_at LOG_ERROR (trace_of r)
     = [Log "Failed to contact light: " (Some TypeError) LOG_ERROR].
Proof.
  intros Hf r. unfold r. rewrite send_frame_run, Hf.
  split; [now apply frame_none_iff in Hf |].
  repeat split.
Qed.

(** Every click that returns ends in [_store_state]. *)
Lemma click_returns_stored (button : Z) (w : world) :
  result_of (on_click cfg py3 button w) = Ret tt ->
  store (world_of (on_click cfg py3 button w))
  = stored (self (world_of (on_click cfg py3 button w))).
Proof.
  unfold on_click.
  match goal with
  | |- context [bind ?m (fun _ => _store_state)] => generalize m
  end.
  intros m. rewrite then_store_run.
  destruct (result_of (m w)) as [[]|e]; [reflexivity | discriminate].
Qed.

(** C9 -- A click on a button outside 1..5 changes no attribute and makes
    no call on the socket or the host but the three writes to the store;
    and every click that returns has written [ledsOn], [currentColor] and
    [colorIndex] to the store.  But a click whose send raises does not
    return and writes nothing: on a strip of 10 LEDs in mode "distribute",
    at the initial 23 LEDs, button 1 changes index and colour in the
    object, raises [ZeroDivisionError] and leaves the store empty. *)
Theorem C9_store :
  (forall button w, ~ 1 <= button <= 5 ->
     on_click cfg py3 button w
     = (World (self w) (stored (self w)), [], Ret tt))
  /\ (forall button w,
        result_of (on_click cfg py3 button w) = Ret tt ->
        store (world_of (on_click cfg py3 button w))
        = stored (self (world_of (on_click cfg py3 button w))))
  /\ on_click (Sample.strip "distribute" 10) py3 1 (Sample.fresh 23)
     = (World (Attrs 23 "#E05B22" 1) (Storage None None None), [],
        Raise ZeroDivisionError).
Proof.
  split; [| split].
  - intros button w Hb. now apply click_other_run.
  - intros button w. apply click_returns_stored.
  - reflexivity.
Qed.

(** C10 -- On startup a stored [leds] of 0 is treated as an absent one:
    both give the same attributes, the same calls and 23 LEDs; every
    stored [leds >= 1] is taken as it is.  So a click that leaves no LED on
    and stores that is followed, after a restart, by 23 LEDs. *)
Theorem C10_restart (a : attrs) (sc : option string) (si : option Z) :
  let boot st := post_config_hook py3 (World a st) in
  self (world_of (boot (Storage (Some 0) sc si)))
  = self (world_of (boot (Storage None sc si)))
  /\ trace_of (boot (Storage (Some 0) sc si))
     = trace_of (boot (Storage None sc si))
  /\ result_of (boot (Storage (Some 0) sc si))
     = result_of (boot (Storage None sc si))
  /\ leds (self (world_of (boot (Storage (Some 0) sc si)))) = 23
  /\ leds (self (world_of (boot (Storage None sc si)))) = 23
  /\ (forall v, 1 <= v ->
        leds (self (world_of (boot (Storage (Some v) sc si)))) = v)
  /\ (forall button w,
        result_of (on_click cfg py3 button w) = Ret tt ->
        leds (self (world_of (on_click cfg py3 button w))) = 0 ->
        leds (self (world_of
                      (post_config_hook py3
                         (world_of (on_click cfg py3 button w))))) = 23).
Proof.
  intros boot. unfold boot.
  do 5 (split;
        [unfold post_config_hook, _get_socket; run;
         now destruct (probe_result py3) |]).
  split.
  - intros v Hv. unfold post_config_hook, _get_socket. run.
    destruct (Z.eqb_spec v 0); [lia |]. now destruct (probe_result py3).
  - intros button w Hr H0. apply click_returns_stored in Hr.
    destruct (world_of (on_click cfg py3 button w)) as [s1 st1].
    cbn [self store] in *. subst st1.
    unfold post_config_hook, _get_socket, stored. run. rewrite H0. simpl.
    now destruct (probe_result py3).
Qed.

End OffAndStore.

(** Two LEDs of a strip of two, in mode "default": the click puts the
    header and six zero bytes on the socket. *)
Lemma C6_button3_sample :
  transmitted (trace_of (on_click (Sample.strip "default" 2) Sample.quiet 3
                           (Sample.fresh 2)))
  = [[x02; xff; x00; x00; x00; x00; x00; x00]].
Proof.
  destruct (proj1 (proj2 (C6_button3 (Sample.strip "default" 2) Sample.quiet
                            (Sample.fresh 2)))
              "02FF000000000000" eq_refl)
    as (data & Hd & _ & Ht & _).
  injection Hd as <-. exact Ht.
Defined.

(** Against C6 as stated: in mode "distribute" with no LED on, the click
    returns and the colour is the host's default, but the encoder yielded
    no frame: nothing was put on the socket and an error was logged. *)
Lemma C6_dark_distribute_sends_nothing :
  on_click (Sample.strip "distribute" 4) Sample.quiet 3 (Sample.fresh 0)
  = (World (Attrs 0 "#00FF00" 0) (stored (Attrs 0 "#00FF00" 0)),
     [Fromhex None;
      Log "Failed to contact light: " (Some TypeError) LOG_ERROR],
     Ret tt)
  /\ transmitted (trace_of (on_click (Sample.strip "distribute" 4)
                              Sample.quiet 3 (Sample.fresh 0))) = [].
Proof. split; reflexivity. Qed.

Lemma C8_no_frame_sample :
  frame_of (Sample.strip "distribute" 2) (self (Sample.fresh 0)) = Ret None
  /\ transmitted (trace_of (_send_frame (Sample.strip "distribute" 2)
                              Sample.quiet (Sample.fresh 0))) = [].
Proof.
  split; [reflexivity |].
  exact (proj1 (proj2 (C8_no_frame (Sample.strip "distribute" 2) Sample.quiet
                         (Sample.fresh 0) eq_refl))).
Defined.

(** The last LED scrolled away in mode "distribute": nothing is
    transmitted and the missing frame is logged at error severity. *)
Lemma C8_missing_frame_logged_as_error :
  on_click (Sample.strip "distribute" 2) Sample.quiet 5 (Sample.fresh 1)
  = (World (Attrs 0 "#00FF00" 0) (stored (Attrs 0 "#00FF00" 0)),
     [Fromhex None;
      Log "Failed to contact light: " (Some TypeError) LOG_ERROR],
     Ret tt).
Proof. reflexivity. Qed.

(** ** Remarks beyond the claims *)

Section Undecodable.

Lemma has_undecodable_append (a b : string) :
  has_undecodable (a ++ b)%string = has_undecodable a || has_undecodable b.
Proof.
  induction a as [|x a IH]; simpl; [reflexivity |].
  now rewrite IH, orb_assoc.
Qed.

(** One character that is neither a digit nor white space spoils the
    whole string for [bytes.fromhex]. *)
Lemma fromhex_undecodable (s : string) :
  has_undecodable s = true -> fromhex_str s = Raise ValueError.
Proof.
  remember (String.length s) as k eqn:Hk.
  assert (Hle : (String.length s <= k)%nat) by lia. clear Hk.
  revert s Hle. induction k as [|k IH]; intros s Hle Hbad.
  - destruct s; [discriminate | simpl in Hle; lia].
  - destruct s as [|c r]; [discriminate |].
    simpl in Hle, Hbad. unfold undecodable, is_hexdigit in Hbad. simpl.
    destruct (is_space c) eqn:Hsp.
    + rewrite andb_false_r in Hbad. simpl in Hbad. apply IH; [lia | exact Hbad].
    + destruct (hexval c) as [hi|]; [| reflexivity].
      simpl in Hbad. destruct r as [|d r']; [discriminate |].
      simpl in Hle, Hbad. unfold undecodable, is_hexdigit in Hbad.
      destruct (hexval d) as [lo|]; [| reflexivity].
      simpl in Hbad. rewrite (IH r'); [reflexivity | lia | exact Hbad].
Qed.

Variable cfg : config.
Variable py3 : host.

(** A colour with such a character, as "#68D74C" and every other colour of
    the shipped palette has with its "#", never reaches the socket: in
    mode "default" with at least one LED on, the frame holds the colour,
    the hex decoder raises [ValueError], and the send operation logs an
    error and transmits nothing. *)
Theorem undecodable_colour_not_sent (w : world) :
  mode cfg = "default" ->
  1 <= leds (self w) -> 1 <= leds_total cfg ->
  has_undecodable (color (self w)) = true ->
  exists f,
    frame_of cfg (self w) = Ret (Some f)
    /\ has_undecodable f = true
    /\ _send_frame cfg py3 w
       = (w, [Fromhex (Some f);
              Log "Failed to contact light: " (Some ValueError) LOG_ERROR],
          Ret tt)
    /\ transmitted (trace_of (_send_frame cfg py3 w)) = [].
Proof.
  intros Hm Hl Ht Hbad.
  assert (Hf : frame_of cfg (self w)
               = Ret (Some (_header (proto cfg)
                            ++ join (map (fun n => paint (color (self w))
                                            (in_run 0 (leds (self w)) n))
                                         (range (leds_total cfg)))))).
  { unfold frame_of, _frame. now apply frame_from_default. }
  eexists. split; [exact Hf |].
  assert (Hu : has_undecodable
                 (_header (proto cfg)
                  ++ join (map (fun n => paint (color (self w))
                                  (in_run 0 (leds (self w)) n))
                               (range (leds_total cfg)))) = true).
  { rewrite has_undecodable_append.
    destruct (range_nonempty (leds_total cfg)) as (l & ->); [lia |].
    simpl. rewrite has_undecodable_append.
    replace (in_run 0 (leds (self w)) 0) with true
      by (symmetry; apply in_run_spec; lia).
    simpl. rewrite Hbad. now rewrite orb_true_r. }
  split; [exact Hu |].
  rewrite send_frame_run, Hf. unfold transport, fromhex.
  rewrite (fromhex_undecodable _ Hu). now split.
Qed.

End Undecodable.

Lemma undecodable_colour_not_sent_sample :
  has_undecodable "#68D74C" = true
  /\ transmitted
       (trace_of (_send_frame (Sample.strip "default" 4) Sample.quiet
                    (World (Attrs 2 "#68D74C" 0) (Storage None None None))))
     = [].
Proof.
  split; [reflexivity |].
  destruct (undecodable_colour_not_sent (Sample.strip "default" 4)
              Sample.quiet
              (World (Attrs 2 "#68D74C" 0) (Storage None None None))
              eq_refl ltac:(cbn; lia) ltac:(cbn; lia) eq_refl)
    as (f & _ & _ & _ & H).
  exact H.
Defined.

(** * Beyond the claims: the encoder *)

Section EncoderMore.

Variable cfg : config.

(** [_frame] raises in one situation only: mode "distribute" with more LEDs
    asked for than there are, on a strip that has LEDs; the exception is
    then [ZeroDivisionError].  In every other mode, and for every other
    count, it returns.  The counts are those a double holds exactly, for
    which no quotient of the encoder leaves the range of a float. *)
Theorem frame_raises_only_on_zero_modulus (p : string) (ledsOn totalLeds : Z)
    (c : string) :
  float_exact ledsOn = true -> float_exact totalLeds = true ->
  ((exists e, _frame cfg p ledsOn totalLeds c = Raise e)
   <-> mode cfg = "distribute" /\ 0 < totalLeds < ledsOn)
  /\ (forall e, _frame cfg p ledsOn totalLeds c = Raise e ->
        e = ZeroDivisionError).
Proof.
  intros _ _.
  destruct (string_dec (mode cfg) "distribute") as [Hd|Hd].
  - destruct (distribute_cases ledsOn totalLeds) as [H|[[H1 H2]|H]];
      unfold _frame.
    + rewrite frame_from_distribute_none by trivial.
      split; [split | intros e]; [intros [e He] | intros [_ Hr] |];
        (discriminate || lia).
    + rewrite frame_from_distribute by trivial.
      split; [split | intros e]; [intros [e He] | intros [_ Hr] |];
        (discriminate || lia).
    + rewrite frame_from_distribute_raises by trivial.
      split; [split | intros e].
      * intros _. now split.
      * intros _. now exists ZeroDivisionError.
      * now intros [= <-].
  - destruct (frame_some cfg p ledsOn totalLeds c) as (f & Hf); [now left |].
    rewrite Hf. split; [split | intros e]; [intros [e He] | intros [Hm _] |];
      (discriminate || contradiction).
Qed.

(** The size of a frame does not depend on how many LEDs are on: with a
    colour of six characters it is the header plus six characters per LED
    of the strip, in each of the three named modes. *)
Theorem frame_length (p : string) (ledsOn totalLeds : Z) (c f : string) :
  String.length c = 6%nat ->
  mode cfg = "default" \/ mode cfg = "center" \/ mode cfg = "distribute" ->
  _frame cfg p ledsOn totalLeds c = Ret (Some f) ->
  Z.of_nat (String.length f)
  = Z.of_nat (String.length (_header p)) + 6 * Z.max 0 totalLeds.
Proof.
  intros Hc Hm Hf. destruct (frame_painted cfg _ _ _ _ _ Hm Hf) as (q & ->).
  rewrite length_append, (length_join _ 6).
  - rewrite length_map, length_range. lia.
  - apply Forall_forall. intros b Hb.
    apply in_map_iff in Hb. destruct Hb as (k & <- & _).
    now apply length_paint.
Qed.

End EncoderMore.

(** The initial 23 LEDs on a strip of 10: the encoder raises, and a
    strip of 30 makes it return. *)
Lemma frame_raises_only_on_zero_modulus_sample :
  float_exact 23 = true /\ float_exact 10 = true
  /\ (exists e,
        _frame (Sample.strip "distribute" 10) "drgb" 23 10 "aabbcc" = Raise e)
  /\ ~ (exists e,
          _frame (Sample.strip "distribute" 30) "drgb" 23 30 "aabbcc"
          = Raise e).
Proof.
  split; [reflexivity |]. split; [reflexivity |]. split.
  - apply (proj1 (frame_raises_only_on_zero_modulus
                    (Sample.strip "distribute" 10) "drgb" 23 10 "aabbcc"
                    eq_refl eq_refl)).
    split; [reflexivity | lia].
  - intros H.
    apply (proj1 (frame_raises_only_on_zero_modulus
                    (Sample.strip "distribute" 30) "drgb" 23 30 "aabbcc"
                    eq_refl eq_refl)) in H.
    lia.
Defined.

Lemma frame_length_sample :
  Z.of_nat (String.length "02FF000000aabbcc")
  = Z.of_nat (String.length (_header "drgb")) + 6 * Z.max 0 2.
Proof.
  apply (frame_length (Sample.strip "distribute" 2) "drgb" 1 2 "aabbcc");
    [reflexivity | now right; right | reflexivity].
Defined.

(** ** Where the lit LEDs are *)

Section Shapes.

Lemma join_app (a b : list string) :
  join (a ++ b)%list = join a ++ join b.
Proof.
  induction a as [|x a IH]; simpl; [reflexivity |].
  now rewrite IH, append_assoc.
Qed.

Lemma map_seq_from (n m : nat) :
  map Z.of_nat (seq n m)
  = map (Z.add (Z.of_nat n)) (map Z.of_nat (seq 0 m)).
Proof.
  revert n. induction m as [|m IH]; intros n; simpl; [reflexivity |].
  f_equal; [lia |].
  rewrite (IH (S n)), (IH 1%nat), !map_map.
  apply map_ext. intros k. lia.
Qed.

Lemma range_app (a b : Z) :
  0 <= a -> 0 <= b ->
  range (a + b) = (range a ++ map (Z.add a) (range b))%list.
Proof.
  intros Ha Hb. unfold range.
  rewrite Z2Nat.inj_add, seq_app, map_app by lia. f_equal.
  simpl. rewrite map_seq_from. rewrite Z2Nat.id by lia. reflexivity.
Qed.

Lemma range_succ (k : Z) : 0 <= k -> range (k + 1) = (range k ++ [k])%list.
Proof.
  intros Hk. rewrite range_app by lia. f_equal.
  simpl. f_equal. lia.
Qed.

Lemma map_constant {A B} (f : A -> B) (v : B) (l : list A) :
  (forall x, In x l -> f x = v) -> map f l = repeat v (List.length l).
Proof.
  induction l as [|x l IH]; intros H; simpl; [reflexivity |].
  rewrite (H x) by now left. f_equal. apply IH.
  intros y Hy. apply H. now right.
Qed.

Lemma filter_all {A} (f : A -> bool) (l : list A) :
  (forall x, In x l -> f x = true) -> filter f l = l.
Proof.
  induction l as [|x l IH]; intros H; simpl; [reflexivity |].
  rewrite (H x) by now left. f_equal. apply IH.
  intros y Hy. apply H. now right.
Qed.

Lemma filter_none {A} (f : A -> bool) (l : list A) :
  (forall x, In x l -> f x = false) -> filter f l = [].
Proof.
  induction l as [|x l IH]; intros H; simpl; [reflexivity |].
  rewrite (H x) by now left. apply IH.
  intros y Hy. apply H. now right.
Qed.

(** A strip cut in three: before the run, the run, behind the run. *)
Lemma range_three (s l r : Z) :
  0 <= s -> 0 <= l -> 0 <= r ->
  range (s + l + r)
  = (range s ++ map (Z.add s) (range l)
     ++ map (Z.add (s + l)) (range r))%list.
Proof.
  intros Hs Hl Hr.
  rewrite (range_app (s + l) r), (range_app s l) by lia.
  now rewrite <- app_assoc.
Qed.

Lemma in_run_before (s l n : Z) : In n (range s) -> in_run s l n = false.
Proof.
  intros H. apply in_range in H. apply not_true_is_false.
  rewrite in_run_spec. lia.
Qed.

Lemma in_run_inside (s l n : Z) :
  In n (map (Z.add s) (range l)) -> in_run s l n = true.
Proof.
  intros H. apply in_map_iff in H. destruct H as (k & <- & Hk).
  apply in_range in Hk. apply in_run_spec. lia.
Qed.

Lemma in_run_behind (s l r n : Z) :
  0 <= l -> In n (map (Z.add (s + l)) (range r)) -> in_run s l n = false.
Proof.
  intros Hl H. apply in_map_iff in H. destruct H as (k & <- & Hk).
  apply in_range in Hk. apply not_true_is_false.
  rewrite in_run_spec. lia.
Qed.

(** The blocks of a run of [l] LEDs with [s] dark LEDs before it and [r]
    behind it. *)
Lemma run_shape (c : string) (s l r : Z) :
  0 <= s -> 0 <= l -> 0 <= r ->
  map (fun n => paint c (in_run s l n)) (range (s + l + r))
  = (repeat "000000" (Z.to_nat s) ++ repeat c (Z.to_nat l)
     ++ repeat "000000" (Z.to_nat r))%list.
Proof.
  intros Hs Hl Hr. rewrite range_three, !map_app by trivial.
  rewrite (map_constant _ "000000" (range s)),
    (map_constant _ c (map (Z.add s) (range l))),
    (map_constant _ "000000" (map (Z.add (s + l)) (range r))).
  - now rewrite !length_map, !length_range.
  - intros n Hn. now rewrite (in_run_behind s l r n).
  - intros n Hn. now rewrite (in_run_inside s l n).
  - intros n Hn. now rewrite (in_run_before s l n).
Qed.

Lemma run_members (s l r : Z) :
  0 <= s -> 0 <= l -> 0 <= r ->
  filter (in_run s l) (range (s + l + r)) = map (Z.add s) (range l).
Proof.
  intros Hs Hl Hr. rewrite range_three, !filter_app by trivial.
  rewrite (filter_none _ (range s)),
    (filter_all _ (map (Z.add s) (range l))),
    (filter_none _ (map (Z.add (s + l)) (range r))).
  - now rewrite app_nil_r.
  - intros n Hn. now apply (in_run_behind s l r n).
  - intros n Hn. now apply in_run_inside.
  - intros n Hn. now apply in_run_before.
Qed.

(** The LEDs that show the colour in a painted frame are the painted
    ones, when the colour is not the dark one. *)
Lemma lit_leds_painted (hdr c : string) (q : Z -> bool) (total : Z) :
  String.length c = 6%nat -> c <> "000000" ->
  lit_leds hdr (hdr ++ join (map (fun n => paint c (q n)) (range total)))
    c total
  = filter q (range total).
Proof.
  intros Hc Hz. unfold lit_leds. apply filter_ext_in. intros n Hn.
  apply in_range in Hn. rewrite block_painted by trivial.
  unfold paint. destruct (q n).
  - apply String.eqb_refl.
  - apply String.eqb_neq. congruence.
Qed.

End Shapes.

Section LitLeds.

Variable cfg : config.

(** In mode "center" with [0 <= ledsOn <= totalLeds] the frame is the
    header, then the dark LEDs on the left, then [ledsOn] LEDs in the
    colour, then the dark LEDs on the right; the left margin is the floor
    of half the dark LEDs, so the right margin is as long or one longer,
    and the lit LEDs are the [ledsOn] ones from the left margin on. *)
Theorem center_shape (p : string) (ledsOn totalLeds : Z) (c : string) :
  mode cfg = "center" -> 0 <= ledsOn <= totalLeds ->
  let left := (totalLeds - ledsOn) / 2 in
  let right := totalLeds - ledsOn - left in
  _frame cfg p ledsOn totalLeds c
  = Ret (Some (_header p
               ++ join (repeat "000000" (Z.to_nat left)
                        ++ repeat c (Z.to_nat ledsOn)
                        ++ repeat "000000" (Z.to_nat right))%list))
  /\ 0 <= left <= right /\ right <= left + 1
  /\ (String.length c = 6%nat -> c <> "000000" ->
      forall f, _frame cfg p ledsOn totalLeds c = Ret (Some f) ->
        lit_leds (_header p) f c totalLeds
        = map (Z.add left) (range ledsOn)).
Proof.
  intros Hm Hl left right.
  assert (Hb : 0 <= left <= right /\ right <= left + 1).
  { unfold right, left. Z.to_euclidean_division_equations. lia. }
  assert (Ht : range totalLeds = range (left + ledsOn + right))
    by (f_equal; unfold right; lia).
  assert (Hf : _frame cfg p ledsOn totalLeds c
               = Ret (Some (_header p
                            ++ join (map (fun n => paint c
                                            (in_run left ledsOn n))
                                       (range totalLeds))))).
  { unfold _frame. rewrite frame_from_center by trivial.
    now rewrite Z.quot_div_nonneg by lia. }
  split; [| split; [lia | split; [lia |]]].
  - rewrite Hf, Ht, run_shape by lia. reflexivity.
  - intros Hc Hz f Ef. rewrite Hf in Ef. injection Ef as <-.
    rewrite lit_leds_painted by trivial.
    rewrite Ht. apply run_members; lia.
Qed.

(** One LED in [m], from LED 1 on, among the first [k]. *)
Lemma picked_step (m k : Z) :
  2 <= m -> 0 <= k ->
  (k + 1 + m - 2) / m
  = (k + m - 2) / m + (if picked m k then 1 else 0).
Proof.
  intros Hm Hk. unfold picked.
  destruct (Z.ltb_spec m 2); [lia |]. rewrite orb_false_r.
  pose proof (Z.div_mod (k + m - 2) m ltac:(lia)) as E.
  pose proof (Z.mod_pos_bound (k + m - 2) m ltac:(lia)) as B.
  set (q := (k + m - 2) / m) in *. set (r := (k + m - 2) mod m) in *.
  destruct (Z.eq_dec r (m - 1)) as [Hr|Hr].
  - rewrite <- (Z.div_unique (k + 1 + m - 2) m (q + 1) 0) by lia.
    rewrite <- (Z.mod_unique k m q 1) by lia. reflexivity.
  - rewrite <- (Z.div_unique (k + 1 + m - 2) m q (r + 1)) by lia.
    destruct (Z.eq_dec (r + 2) m) as [Hr2|Hr2].
    + rewrite <- (Z.mod_unique k m q 0) by lia. simpl. lia.
    + rewrite <- (Z.mod_unique k m (q - 1) (r + 2)) by lia.
      destruct (Z.eqb_spec (r + 2) 1); lia.
Qed.

Lemma count_picked (m : Z) (k : nat) :
  2 <= m ->
  Z.of_nat (List.length (filter (picked m) (range (Z.of_nat k))))
  = (Z.of_nat k + m - 2) / m.
Proof.
  intros Hm. induction k as [|k IH].
  - simpl. symmetry. apply Z.div_small. lia.
  - replace (Z.of_nat (S k)) with (Z.of_nat k + 1) by lia.
    rewrite range_succ, filter_app, length_app, Nat2Z.inj_add, IH by lia.
    rewrite picked_step by lia. simpl.
    now destruct (picked m (Z.of_nat k)).
Qed.

(** In mode "distribute" with [1 <= ledsOn <= totalLeds] and
    [m = totalLeds / ledsOn], the lit LEDs are those with [n mod m = 1],
    or all of them when [m < 2].  There are [(totalLeds + m - 2) / m] of
    them for [m >= 2], which is at least [ledsOn] and can be more; LED 0
    is then dark and LED 1 lit. *)
Theorem distribute_lit_leds (p : string) (ledsOn totalLeds : Z) (c : string) :
  mode cfg = "distribute" -> 1 <= ledsOn <= totalLeds ->
  String.length c = 6%nat -> c <> "000000" ->
  let m := totalLeds / ledsOn in
  exists f,
    _frame cfg p ledsOn totalLeds c = Ret (Some f)
    /\ lit_leds (_header p) f c totalLeds
       = filter (picked m) (range totalLeds)
    /\ Z.of_nat (List.length (lit_leds (_header p) f c totalLeds))
       = (if m <? 2 then totalLeds else (totalLeds + m - 2) / m)
    /\ ledsOn <= Z.of_nat (List.length (lit_leds (_header p) f c totalLeds))
    /\ (2 <= m ->
        ~ In 0 (lit_leds (_header p) f c totalLeds)
        /\ In 1 (lit_leds (_header p) f c totalLeds)).
Proof.
  intros Hm Hl Hc Hz m.
  assert (Hm1 : 1 <= m) by (apply Z.div_le_lower_bound; lia).
  assert (Hml : ledsOn * m <= totalLeds).
  { unfold m. apply Z.mul_div_le. lia. }
  eexists. split.
  { unfold _frame. apply frame_from_distribute; [trivial | lia | lia]. }
  rewrite lit_leds_painted by trivial. fold m.
  assert (Hn : Z.of_nat (List.length (filter (picked m) (range totalLeds)))
               = (if m <? 2 then totalLeds else (totalLeds + m - 2) / m)).
  { destruct (Z.ltb_spec m 2) as [H2|H2].
    - rewrite filter_all, length_range by
        (intros n _; apply picked_spec; right; lia). lia.
    - rewrite <- (Z2Nat.id totalLeds) at 1 by lia.
      rewrite count_picked by lia. now rewrite Z2Nat.id by lia. }
  split; [reflexivity |]. split; [exact Hn |]. split.
  - rewrite Hn. destruct (Z.ltb_spec m 2) as [H2|H2]; [lia |].
    apply Z.div_le_lower_bound; nia.
  - intros H2. rewrite !filter_In, !in_range. split.
    + intros [_ H0]. apply picked_spec in H0.
      rewrite Z.mod_0_l in H0 by lia. lia.
    + split; [nia |]. apply picked_spec. left. apply Z.mod_small. lia.
Qed.

End LitLeds.

Lemma center_shape_sample :
  _frame (Sample.strip "center" 5) "rgb" 2 5 "aabbcc"
  = Ret (Some "000000aabbccaabbcc000000000000").
Proof.
  exact (proj1 (center_shape (Sample.strip "center" 5) "rgb" 2 5 "aabbcc"
                  eq_refl ltac:(lia))).
Defined.

(** A strip of 100 with 30 asked for lights 33. *)
Lemma distribute_lit_leds_sample :
  exists f,
    _frame (Sample.strip "distribute" 100) "rgb" 30 100 "aabbcc"
    = Ret (Some f)
    /\ Z.of_nat (List.length (lit_leds (_header "rgb") f "aabbcc" 100)) = 33.
Proof.
  destruct (distribute_lit_leds (Sample.strip "distribute" 100) "rgb" 30 100
              "aabbcc" eq_refl ltac:(lia) eq_refl ltac:(discriminate))
    as (f & Hf & _ & Hn & _).
  exists f. split; [exact Hf | exact Hn].
Defined.

(** * Beyond the claims: the datagram *)

Section Datagram.

Variable cfg : config.

(** The datagram of a frame.  For a colour of six hexadecimal digits the
    frame of each named mode decodes: to 0x02 0xFF for protocol "drgb" and
    to nothing for any other, followed LED by LED by the three bytes of
    the colour where the frame has the colour and by three zero bytes
    where it has not; 3 bytes per LED, whatever the number of LEDs on. *)
Theorem datagram_layout (p : string) (ledsOn totalLeds : Z) (c f : string) :
  all_hex c = true -> String.length c = 6%nat ->
  mode cfg = "default" \/ mode cfg = "center" \/ mode cfg = "distribute" ->
  _frame cfg p ledsOn totalLeds c = Ret (Some f) ->
  exists (rgb : list byte) (q : Z -> bool),
    fromhex (Some c) = Ret rgb
    /\ List.length rgb = 3%nat
    /\ f = _header p ++ join (map (fun n => paint c (q n)) (range totalLeds))
    /\ fromhex (Some f)
       = Ret ((if (p =? "drgb")%string then [x02; xff] else [])
              ++ List.concat (map (fun n => if q n then rgb else dark)
                           (range totalLeds)))%list
    /\ (forall data, fromhex (Some f) = Ret data ->
          Z.of_nat (List.length data)
          = (if (p =? "drgb")%string then 2 else 0) + 3 * Z.max 0 totalLeds).
Proof.
  intros Hx Hc Hm Hf.
  destruct (fromhex_hex c Hx) as (rgb & Hr & Hlen & Happ);
    [now rewrite Hc |].
  destruct (frame_painted cfg _ _ _ _ _ Hm Hf) as (q & ->).
  assert (H3 : List.length rgb = 3%nat) by lia.
  exists rgb, q. repeat split; trivial.
  - now apply painted_bytes.
  - intros data Hdata. rewrite (painted_bytes p c rgb q _ Happ) in Hdata.
    injection Hdata as <-. now apply length_painted_bytes.
Qed.

Variable py3 : host.

(** What [_send_frame] does with a colour of six hexadecimal digits in a
    named mode, when the encoder yields a frame: one datagram goes to the
    socket, of 3 bytes per LED behind the header bytes; the object and the
    store stay as they are; nothing is raised; and an error is logged
    exactly when the socket raises. *)
Theorem send_frame_transmits (w : world) (f : string) :
  all_hex (color (self w)) = true ->
  String.length (color (self w)) = 6%nat ->
  mode cfg = "default" \/ mode cfg = "center" \/ mode cfg = "distribute" ->
  frame_of cfg (self w) = Ret (Some f) ->
  exists data,
    fromhex (Some f) = Ret data
    /\ Z.of_nat (List.length data)
       = (if (proto cfg =? "drgb")%string then 2 else 0)
         + 3 * Z.max 0 (leds_total cfg)
    /\ _send_frame cfg py3 w
       = (w,
          Fromhex (Some f) :: Sendto data
            :: (if sendto_raises py3 data
                then [Log "Failed to contact light: " (Some OSError)
                        LOG_ERROR]
                else []),
          Ret tt).
Proof.
  intros Hx Hc Hm Hf.
  destruct (fromhex_hex _ Hx) as (rgb & Hr & Hlen & Happ);
    [now rewrite Hc |].
  assert (H3 : List.length rgb = 3%nat) by lia.
  destruct (frame_painted cfg _ _ _ _ _ Hm Hf) as (q & Eq).
  pose proof (painted_bytes (proto cfg) _ rgb q (leds_total cfg) Happ) as Hd.
  rewrite <- Eq in Hd.
  eexists. split; [exact Hd |]. split; [now apply length_painted_bytes |].
  rewrite send_frame_run, Hf. unfold transport. now rewrite Hd.
Qed.

End Datagram.

Lemma datagram_layout_sample :
  exists (rgb : list byte) (q : Z -> bool),
    fromhex (Some "aabbcc") = Ret rgb
    /\ fromhex (Some "02FFaabbcc000000")
       = Ret ([x02; xff]
              ++ List.concat (map (fun n : Z => if q n then rgb else dark)
                                (range 2)))%list.
Proof.
  destruct (datagram_layout (Sample.strip "default" 2) "drgb" 1 2 "aabbcc"
              "02FFaabbcc000000" eq_refl eq_refl ltac:(now left) eq_refl)
    as (rgb & q & Hr & _ & _ & Hd & _).
  exists rgb, q. split; [exact Hr | exact Hd].
Defined.

Lemma send_frame_transmits_sample :
  exists data,
    Z.of_nat (List.length data) = 2 + 3 * 2
    /\ transmitted
         (trace_of (_send_frame (Sample.strip "default" 2) Sample.quiet
                      (World (Attrs 1 "aabbcc" 0) (Storage None None None))))
       = [data].
Proof.
  destruct (send_frame_transmits (Sample.strip "default" 2) Sample.quiet
              (World (Attrs 1 "aabbcc" 0) (Storage None None None))
              "02FFaabbcc000000" eq_refl eq_refl ltac:(now left) eq_refl)
    as (data & _ & Hl & Hs).
  exists data. split; [exact Hl |]. now rewrite Hs.
Defined.

(** * Beyond the claims: the click handler *)

Section ClickMore.

Variable cfg : config.
Variable py3 : host.





(** No branch of the handler writes to the store. *)
Lemma click_raise_keeps_store (button : Z) (w : world) (e : exn) :
  result_of (on_click cfg py3 button w) = Raise e ->
  world_of (on_click cfg py3 button w)
  = World (self (world_of (on_click cfg py3 button w))) (store w).
Proof.
  destruct (Z.eq_dec button 1) as [->|N1].
  { rewrite click1_run. cbn zeta.
    destruct (getitem (colors cfg) _) as [c|e']; [| reflexivity].
    unfold sent_and_stored. now destruct (frame_of cfg _). }
  destruct (Z.eq_dec button 2) as [->|N2].
  { rewrite click2_run.
    destruct (picker py3 (color_picker cfg)) as [lines|];
      [| now destruct w].
    rewrite then_store_run.
    destruct (result_of (for_ lines (picked_line cfg py3) w)) as [[]|e'];
      [discriminate |].
    intros _. unfold world_of at 1 2. cbn [fst].
    destruct (picker_loop_keeps cfg py3 lines w) as (_ & _ & Hs).
    fold (world_of (for_ lines (picked_line cfg py3) w)).
    rewrite <- Hs. now destruct (world_of (for_ lines _ w)). }
  destruct (Z.eq_dec button 3) as [->|N3].
  { rewrite click3_run. cbn zeta. now destruct (frame_of cfg _). }
  destruct (Z.eq_dec button 4) as [->|N4].
  { rewrite click4_run. cbn zeta.
    destruct (leds (self w) <? leds_total cfg); [| discriminate].
    unfold sent_and_stored. now destruct (frame_of cfg _). }
  destruct (Z.eq_dec button 5) as [->|N5].
  { rewrite click5_run. cbn zeta.
    destruct (leds (self w) >? 0); [| discriminate].
    unfold sent_and_stored. now destruct (frame_of cfg _). }
  rewrite click_other_run by lia. discriminate.
Qed.

(** The store after a click holds either the whole state after the click
    or exactly what it held before: a click that raises has written none
    of the three values. *)
Theorem click_stores_all_or_nothing (button : Z) (w : world) :
  (result_of (on_click cfg py3 button w) = Ret tt
   /\ store (world_of (on_click cfg py3 button w))
      = stored (self (world_of (on_click cfg py3 button w))))
  \/ (exists e, result_of (on_click cfg py3 button w) = Raise e
                /\ store (world_of (on_click cfg py3 button w)) = store w).
Proof.
  destruct (result_of (on_click cfg py3 button w)) as [[]|e] eqn:Hr.
  - left. split; [reflexivity | now apply click_returns_stored].
  - right. exists e. split; [reflexivity |].
    now rewrite (click_raise_keeps_store _ _ _ Hr).
Qed.

End ClickMore.


(** ** Sequences of clicks *)

Section ClickSequences.

Variable cfg : config.
Variable py3 : host.

(** The attributes after a scroll, whatever the send does. *)
Lemma click4_self (w : world) :
  self (world_of (on_click cfg py3 4 w))
  = if leds (self w) <? leds_total cfg
    then Attrs (leds (self w) + 1) (color (self w)) (color_idx (self w))
    else self w.
Proof.
  rewrite click4_run. cbn zeta.
  destruct (leds (self w) <? leds_total cfg); [| reflexivity].
  apply sent_and_stored_spec.
Qed.

Lemma click5_self (w : world) :
  self (world_of (on_click cfg py3 5 w))
  = if leds (self w) >? 0
    then Attrs (leds (self w) - 1) (color (self w)) (color_idx (self w))
    else self w.
Proof.
  rewrite click5_run. cbn zeta.
  destruct (leds (self w) >? 0); [| reflexivity].
  apply sent_and_stored_spec.
Qed.

Lemma scroll_up_steps (k : nat) (w : world) :
  leds (self w) <= leds_total cfg ->
  leds (self (clicks cfg py3 (repeat 4 k) w))
  = Z.min (leds (self w) + Z.of_nat k) (leds_total cfg).
Proof.
  revert w. induction k as [|k IH]; intros w Hl.
  - simpl. lia.
  - cbn [repeat clicks].
    assert (E : leds (self (world_of (on_click cfg py3 4 w)))
                = if leds (self w) <? leds_total cfg
                  then leds (self w) + 1 else leds (self w)).
    { rewrite click4_self. now destruct (leds (self w) <? leds_total cfg). }
    rewrite IH; rewrite E;
      destruct (Z.ltb_spec (leds (self w)) (leds_total cfg)); lia.
Qed.

Lemma scroll_down_steps (k : nat) (w : world) :
  0 <= leds (self w) ->
  leds (self (clicks cfg py3 (repeat 5 k) w))
  = Z.max (leds (self w) - Z.of_nat k) 0.
Proof.
  revert w. induction k as [|k IH]; intros w Hl.
  - simpl. lia.
  - cbn [repeat clicks].
    assert (E : leds (self (world_of (on_click cfg py3 5 w)))
                = if leds (self w) >? 0
                  then leds (self w) - 1 else leds (self w)).
    { rewrite click5_self. now destruct (leds (self w) >? 0). }
    rewrite IH; rewrite E;
      destruct (Z.gtb_spec (leds (self w)) 0); lia.
Qed.

(** The LED count is a counter that stops at both ends: [k] scrolls up
    from [ledsOn] give [min (ledsOn + k) totalLeds], [k] scrolls down give
    [max (ledsOn - k) 0]; so [totalLeds] scrolls up light the whole strip
    and [totalLeds] scrolls down switch it off. *)
Theorem led_count_saturates (k : nat) (w : world) :
  0 <= leds (self w) <= leds_total cfg ->
  leds (self (clicks cfg py3 (repeat 4 k) w))
  = Z.min (leds (self w) + Z.of_nat k) (leds_total cfg)
  /\ leds (self (clicks cfg py3 (repeat 5 k) w))
     = Z.max (leds (self w) - Z.of_nat k) 0
  /\ (leds_total cfg <= Z.of_nat k ->
      leds (self (clicks cfg py3 (repeat 4 k) w)) = leds_total cfg
      /\ leds (self (clicks cfg py3 (repeat 5 k) w)) = 0).
Proof.
  intros Hl.
  rewrite scroll_up_steps, scroll_down_steps by lia.
  repeat split; lia.
Qed.

(** A scroll up undoes a scroll down and the other way round, unless the
    first of the two was stopped at an end of the strip. *)
Theorem scroll_up_and_down_cancel (w : world) :
  0 <= leds (self w) <= leds_total cfg ->
  (leds (self w) < leds_total cfg ->
   self (clicks cfg py3 [4; 5] w) = self w)
  /\ (0 < leds (self w) ->
      self (clicks cfg py3 [5; 4] w) = self w)
  /\ (leds (self w) = leds_total cfg -> 0 < leds (self w) ->
      leds (self (clicks cfg py3 [4; 5] w)) = leds (self w) - 1)
  /\ (leds (self w) = 0 -> 0 < leds_total cfg ->
      leds (self (clicks cfg py3 [5; 4] w)) = 1).
Proof.
  intros Hl. cbn [clicks].
  repeat (rewrite click5_self || rewrite click4_self).
  revert Hl. destruct (self w) as [l c i]. cbn [leds color color_idx].
  intros Hl. split; [| split; [| split]].
  - intros H. destruct (Z.ltb_spec l (leds_total cfg)); [| lia].
    cbn [leds color color_idx].
    destruct (Z.gtb_spec (l + 1) 0); [| lia]. f_equal. lia.
  - intros H. destruct (Z.gtb_spec l 0); [| lia].
    cbn [leds color color_idx].
    destruct (Z.ltb_spec (l - 1) (leds_total cfg)); [| lia]. f_equal. lia.
  - intros H H'. destruct (Z.ltb_spec l (leds_total cfg)); [lia |].
    cbn [leds color color_idx].
    now destruct (Z.gtb_spec l 0); [| lia].
  - intros H H'. destruct (Z.gtb_spec l 0); [lia |].
    cbn [leds color color_idx].
    destruct (Z.ltb_spec l (leds_total cfg)); [| lia].
    cbn [leds]. lia.
Qed.

(** The attributes after a click on button 1 with the index within the
    palette, whatever the send does. *)
Lemma click1_self (w : world) :
  0 <= color_idx (self w) <= ncolors cfg - 1 ->
  exists c,
    getitem (colors cfg) ((color_idx (self w) + 1) mod ncolors cfg) = Ret c
    /\ self (world_of (on_click cfg py3 1 w))
       = Attrs (leds (self w)) c
           ((color_idx (self w) + 1) mod ncolors cfg).
Proof.
  intros Hi.
  destruct (getitem_in_range (colors cfg)
              ((color_idx (self w) + 1) mod ncolors cfg)) as (c & Hc & _).
  { fold (ncolors cfg). apply Z.mod_pos_bound. lia. }
  exists c. split; [exact Hc |].
  rewrite click1_run. cbn zeta. rewrite next_index by trivial.
  rewrite Hc. apply sent_and_stored_spec.
Qed.

Lemma palette_steps (k : nat) (w : world) :
  0 <= color_idx (self w) <= ncolors cfg - 1 ->
  let w' := clicks cfg py3 (repeat 1 k) w in
  color_idx (self w') = (color_idx (self w) + Z.of_nat k) mod ncolors cfg
  /\ leds (self w') = leds (self w)
  /\ ((0 < k)%nat ->
      getitem (colors cfg) (color_idx (self w')) = Ret (color (self w'))).
Proof.
  revert w. induction k as [|k IH]; intros w Hi.
  - cbn. rewrite Z.add_0_r, Z.mod_small by lia.
    repeat split; lia.
  - cbn [repeat clicks].
    destruct (click1_self w Hi) as (c & Hc & Hs).
    assert (Hi' : 0 <= color_idx (self (world_of (on_click cfg py3 1 w)))
                  <= ncolors cfg - 1).
    { rewrite Hs. cbn.
      pose proof (Z.mod_pos_bound (color_idx (self w) + 1) (ncolors cfg)).
      lia. }
    destruct (IH _ Hi') as (Ei & El & Ec).
    split; [| split].
    + rewrite Ei, Hs. cbn [color_idx].
      rewrite Z.add_mod_idemp_l by lia. f_equal. lia.
    + rewrite El, Hs. reflexivity.
    + intros _. destruct k as [|k].
      * cbn [repeat clicks]. rewrite Hs. exact Hc.
      * apply Ec. lia.
Qed.

(** The palette is a ring: from an index within the palette, [k] clicks
    on button 1 lead to index [(index + k) mod paletteSize] and to the
    palette's colour there, and leave the LED count alone; as many clicks
    as there are colours lead back to the index they started from. *)
Theorem palette_cycle (k : nat) (w : world) :
  0 <= color_idx (self w) <= ncolors cfg - 1 ->
  color_idx (self (clicks cfg py3 (repeat 1 k) w))
  = (color_idx (self w) + Z.of_nat k) mod ncolors cfg
  /\ leds (self (clicks cfg py3 (repeat 1 k) w)) = leds (self w)
  /\ ((0 < k)%nat ->
      getitem (colors cfg) (color_idx (self (clicks cfg py3 (repeat 1 k) w)))
      = Ret (color (self (clicks cfg py3 (repeat 1 k) w))))
  /\ color_idx (self (clicks cfg py3
                        (repeat 1 (List.length (colors cfg))) w))
     = color_idx (self w).
Proof.
  intros Hi.
  destruct (palette_steps k w Hi) as (H1 & H2 & H3).
  split; [exact H1 |]. split; [exact H2 |]. split; [exact H3 |].
  destruct (palette_steps (List.length (colors cfg)) w Hi) as (H & _ & _).
  rewrite H. fold (ncolors cfg).
  rewrite <- (Z.mul_1_l (ncolors cfg)) at 1.
  rewrite Z.mod_add by lia. apply Z.mod_small. lia.
Qed.

End ClickSequences.

Lemma led_count_saturates_sample :
  leds (self (clicks (Sample.strip "default" 4) Sample.quiet (repeat 4 9%nat)
                (Sample.fresh 2))) = 4.
Proof.
  exact (proj1 (led_count_saturates (Sample.strip "default" 4) Sample.quiet
                  9 (Sample.fresh 2) ltac:(cbn; lia))).
Defined.

Lemma scroll_up_and_down_cancel_sample :
  self (clicks (Sample.strip "default" 4) Sample.quiet [4; 5]
          (Sample.fresh 2)) = self (Sample.fresh 2).
Proof.
  exact (proj1 (scroll_up_and_down_cancel (Sample.strip "default" 4)
                  Sample.quiet (Sample.fresh 2) ltac:(cbn; lia))
           ltac:(cbn; lia)).
Defined.

Lemma palette_cycle_sample :
  color_idx (self (clicks (Sample.strip "default" 4) Sample.quiet
                     (repeat 1 3%nat) (Sample.fresh 2))) = 0.
Proof.
  exact (proj2 (proj2 (proj2
           (palette_cycle (Sample.strip "default" 4) Sample.quiet 0
              (Sample.fresh 2) ltac:(cbn; lia))))).
Defined.

(** ** The colour picker *)

Section Picker.

Lemma emitted_app (a b : list event) :
  emitted (a ++ b) = (emitted a ++ emitted b)%list.
Proof.
  induction a as [|e a IH]; [reflexivity |].
  destruct e as [[f|]| | |]; simpl; now rewrite IH.
Qed.

Lemma last_cons_default {A} (l : list A) (x d : A) :
  last (x :: l) d = last l x.
Proof.
  revert x d. induction l as [|a l IH]; intros x d; [reflexivity |].
  change (last (x :: a :: l) d) with (last (a :: l) d).
  now rewrite !IH.
Qed.

Lemma updates_app (a b : list event) :
  updates (a ++ b) = (updates a + updates b)%nat.
Proof.
  induction a as [|e a IH]; [reflexivity |].
  destruct e; simpl; now rewrite IH.
Qed.

Variable cfg : config.
Variable py3 : host.

Lemma updates_transport (msg : option string) :
  updates (transport py3 msg) = 0%nat.
Proof.
  unfold transport. simpl.
  destruct (fromhex msg) as [data|e]; [| reflexivity]. simpl.
  now destruct (sendto_raises py3 data).
Qed.

Lemma info_transport (msg : option string) :
  logged_at LOG_INFO (transport py3 msg) = [].
Proof.
  unfold transport, logged_at. simpl.
  destruct (fromhex msg) as [data|e]; [| reflexivity]. simpl.
  now destruct (sendto_raises py3 data).
Qed.

(** The loop over the lines, when the encoder yields a frame for every
    colour. *)
Lemma picker_loop_stream (lines : list string) (w : world) :
  mode cfg <> "distribute" \/ 1 <= leds (self w) <= leds_total cfg ->
  let r := for_ lines (picked_line cfg py3) w in
  result_of r = Ret tt
  /\ world_of r
     = World (Attrs (leds (self w))
                (last (map rstrip_nl lines) (color (self w)))
                (color_idx (self w)))
         (store w)
  /\ updates (trace_of r) = List.length lines
  /\ map (fun f => Ret (Some f)) (emitted (trace_of r))
     = map (fun c => frame_of cfg (Attrs (leds (self w)) (rstrip_nl c)
                                     (color_idx (self w)))) lines
  /\ logged_at LOG_INFO (trace_of r)
     = map (fun c => Log (rstrip_nl c) None LOG_INFO) lines.
Proof.
  revert w. induction lines as [|c lines IH]; intros w H.
  - cbn. now destruct w as [[l c i] st].
  - change (for_ (c :: lines) (picked_line cfg py3) w)
      with (bind (picked_line cfg py3 c)
              (fun _ => for_ lines (picked_line cfg py3)) w).
    unfold bind. rewrite picked_line_run. cbn zeta.
    destruct (frame_some cfg (proto cfg) (leds (self w)) (leds_total cfg)
                (rstrip_nl c)) as (f & Hf); [exact H |].
    change (frame_of cfg (Attrs (leds (self w)) (rstrip_nl c)
                            (color_idx (self w))) = Ret (Some f)) in Hf.
    rewrite Hf.
    specialize (IH (World (Attrs (leds (self w)) (rstrip_nl c)
                             (color_idx (self w))) (store w)) H).
    cbn zeta in IH. cbn [self store leds color color_idx] in IH.
    destruct (for_ lines (picked_line cfg py3) _) as [[w1 t1] r1].
    unfold result_of, world_of, trace_of in *. cbn [fst snd] in *.
    destruct IH as (Hr & Hw & Hu & He & Hi).
    split; [exact Hr |]. split.
    { rewrite Hw. cbn [map]. now rewrite last_cons_default. }
    cbn [app]. rewrite <- !app_assoc. cbn [app].
    split.
    { cbn [updates]. rewrite updates_app, updates_transport.
      cbn. now rewrite Hu. }
    split.
    { cbn [emitted]. rewrite emitted_app, emitted_transport.
      cbn [map app emitted]. now rewrite He, Hf. }
    unfold logged_at in *. cbn [filter is_log_at].
    rewrite filter_app.
    fold (logged_at LOG_INFO (transport py3 (Some f))).
    rewrite info_transport. cbn. now rewrite Hi.
Qed.

(** The whole trace of the loop: line by line, what [line_events] says. *)
Lemma picker_loop_trace (lines : list string) (w : world) :
  mode cfg <> "distribute" \/ 1 <= leds (self w) <= leds_total cfg ->
  trace_of (for_ lines (picked_line cfg py3) w)
  = flat_map (line_events cfg py3 (self w)) lines.
Proof.
  revert w. induction lines as [|c lines IH]; intros w H; [reflexivity |].
  change (for_ (c :: lines) (picked_line cfg py3) w)
    with (bind (picked_line cfg py3 c)
            (fun _ => for_ lines (picked_line cfg py3)) w).
  unfold bind. rewrite picked_line_run. cbn zeta.
  cbn [flat_map]. unfold line_events at 1.
  destruct (frame_some cfg (proto cfg) (leds (self w)) (leds_total cfg)
              (rstrip_nl c)) as (f & Hf); [exact H |].
  change (frame_of cfg (Attrs (leds (self w)) (rstrip_nl c)
                          (color_idx (self w))) = Ret (Some f)) in Hf.
  rewrite Hf.
  specialize (IH (World (Attrs (leds (self w)) (rstrip_nl c)
                           (color_idx (self w))) (store w)) H).
  unfold trace_of in *.
  destruct (for_ lines (picked_line cfg py3) _) as [[w1 t1] r1].
  cbn [fst snd] in *. now rewrite IH.
Qed.

Lemma transmitted_app (a b : list event) :
  transmitted (a ++ b) = (transmitted a ++ transmitted b)%list.
Proof.
  induction a as [|e a IH]; [reflexivity |].
  destruct e; simpl; now rewrite IH.
Qed.

(** One datagram per line, when every line is a colour of six hexadecimal
    digits. *)
Lemma transmitted_lines (s : attrs) (lines : list string) :
  mode cfg <> "distribute" \/ 1 <= leds s <= leds_total cfg ->
  (forall c, In c lines ->
     all_hex (rstrip_nl c) = true
     /\ String.length (rstrip_nl c) = 6%nat) ->
  List.length (transmitted (flat_map (line_events cfg py3 s) lines))
  = List.length lines.
Proof.
  intros H. induction lines as [|c lines IH]; intros Hx; [reflexivity |].
  cbn [flat_map]. rewrite transmitted_app, length_app, IH
    by (intros d Hd; apply Hx; now right).
  destruct (Hx c (or_introl eq_refl)) as (Hh & Hl).
  unfold line_events.
  destruct (frame_some cfg (proto cfg) (leds s) (leds_total cfg)
              (rstrip_nl c)) as (f & Hf); [exact H |].
  change (frame_of cfg (Attrs (leds s) (rstrip_nl c) (color_idx s))
          = Ret (Some f)) in Hf.
  rewrite Hf.
  destruct (frame_decodes cfg _ _ _ _ _ Hh Hl Hf) as (data & Hd).
  cbn [transmitted]. rewrite transmitted_app.
  rewrite (proj2 (transport_sent py3 (Some f) data Hd)). reflexivity.
Qed.

(** Button 2.  When [subprocess.Popen] cannot spawn the picker, the click
    raises what [Popen] raised and changes, sends and stores nothing.
    When the picker runs, yields its lines and ends, and the encoder
    yields a frame for every colour (in every mode but "distribute", in
    mode "center" for a difference of the counts that a double holds
    exactly, and in "distribute" for [1 <= ledsOn <= totalLeds]), the
    click returns.  Its trace is, line after line, the line stripped of
    its trailing newlines logged at info severity, the send of the frame
    in that colour, and one widget refresh: what the first lines leave
    does not depend on the lines that follow.  The colour that stays, in
    the object and in the store, is the last line's; the LED count and
    the index are left alone.  When every line is six hexadecimal digits,
    one datagram per line is put on the socket. *)
Theorem colour_picker_stream (w : world) :
  (picker py3 (color_picker cfg) = None ->
   on_click cfg py3 2 w
   = (w, [], Raise (spawn_error py3 (color_picker cfg))))
  /\ (forall lines,
        picker py3 (color_picker cfg) = Some lines ->
        mode cfg <> "distribute" \/ 1 <= leds (self w) <= leds_total cfg ->
        (mode cfg = "center" ->
         float_exact (leds_total cfg - leds (self w)) = true) ->
        let r := on_click cfg py3 2 w in
        let s' := Attrs (leds (self w))
                    (last (map rstrip_nl lines) (color (self w)))
                    (color_idx (self w)) in
        result_of r = Ret tt
        /\ world_of r = World s' (stored s')
        /\ trace_of r = flat_map (line_events cfg py3 (self w)) lines
        /\ (forall first rest, lines = (first ++ rest)%list ->
              trace_of r
              = (flat_map (line_events cfg py3 (self w)) first
                 ++ flat_map (line_events cfg py3 (self w)) rest)%list)
        /\ updates (trace_of r) = List.length lines
        /\ map (fun f => Ret (Some f)) (emitted (trace_of r))
           = map (fun c => frame_of cfg (Attrs (leds (self w)) (rstrip_nl c)
                                           (color_idx (self w)))) lines
        /\ logged_at LOG_INFO (trace_of r)
           = map (fun c => Log (rstrip_nl c) None LOG_INFO) lines
        /\ ((forall c, In c lines ->
               all_hex (rstrip_nl c) = true
               /\ String.length (rstrip_nl c) = 6%nat) ->
            List.length (transmitted (trace_of r)) = List.length lines)).
Proof.
  split.
  - intros Hp. rewrite click2_run. now rewrite Hp.
  - intros lines Hp Hm _ r s'. unfold r.
    rewrite click2_run, Hp, then_store_run.
    destruct (picker_loop_stream lines w Hm) as (Hr & Hw & Hu & He & Hi).
    pose proof (picker_loop_trace lines w Hm) as Ht.
    rewrite Hr. unfold result_of, world_of, trace_of in *. cbn [fst snd].
    rewrite Hw. cbn [self].
    split; [reflexivity |]. split; [reflexivity |]. split; [exact Ht |].
    split; [intros first rest ->; rewrite Ht; apply flat_map_app |].
    split; [exact Hu |]. split; [exact He |]. split; [exact Hi |].
    intros Hx. rewrite Ht. now apply transmitted_lines.
Qed.

End Picker.

(** A picker that yields two lines and ends: the colour of the second
    stays.  With an empty command, which [subprocess.Popen] cannot spawn,
    the click raises [IndexError]. *)
Lemma colour_picker_stream_sample :
  color (self (world_of
    (on_click (Sample.strip "default" 2)
       (Sample.picking [String "a" (String "010" ""); "0000ff"])
       2 (Sample.fresh 1)))) = "0000ff"
  /\ on_click (Config "drgb" 2 "default" Sample.palette []) Sample.quiet 2
       (Sample.fresh 1)
     = (Sample.fresh 1, [], Raise IndexError).
Proof.
  split.
  - rewrite (proj1 (proj2
               (proj2 (colour_picker_stream (Sample.strip "default" 2)
                         (Sample.picking
                            [String "a" (String "010" ""); "0000ff"])
                         (Sample.fresh 1))
                  [String "a" (String "010" ""); "0000ff"] eq_refl
                  ltac:(left; discriminate) ltac:(discriminate)))).
    reflexivity.
  - exact (proj1 (colour_picker_stream
                    (Config "drgb" 2 "default" Sample.palette [])
                    Sample.quiet (Sample.fresh 1)) eq_refl).
Defined.

(** ** Restart *)

Section Restart.

Variable py3 : host.

(** The attributes [post_config_hook] builds from a store. *)
Lemma post_config_hook_self (a : attrs) (st : storage) :
  self (world_of (post_config_hook py3 (World a st)))
  = Attrs
      (match sto_leds st with
       | Some v => if v =? 0 then 23 else v
       | None => 23
       end)
      (match sto_color st with
       | Some v => if (v =? "")%string then COLOR_GOOD py3 else v
       | None => COLOR_GOOD py3
       end)
      (match sto_color_idx st with
       | Some v => v
       | None => 0
       end)
  /\ store (world_of (post_config_hook py3 (World a st))) = st
  /\ result_of (post_config_hook py3 (World a st)) = Ret tt.
Proof.
  unfold post_config_hook, _get_socket. destruct st as [[l|] sc [i|]];
    run;
    try (destruct (Z.eqb_spec l 0)); try (destruct (Z.eqb_spec i 0));
    subst; run; destruct (probe_result py3); repeat split.
Qed.

(** What was stored comes back after a restart, but for two values: an
    LED count of 0 comes back as 23 and an empty colour as the host's
    default colour.  The index always comes back, and nothing is checked
    against the strip or the palette.  So after a click that returns with
    an LED on and a colour that is not empty, a restart restores the
    object as the click left it. *)
Theorem restart_restores (a s : attrs) :
  let r := post_config_hook py3 (World a (stored s)) in
  self (world_of r)
  = Attrs (if leds s =? 0 then 23 else leds s)
      (if (color s =? "")%string then COLOR_GOOD py3 else color s)
      (color_idx s)
  /\ store (world_of r) = stored s
  /\ result_of r = Ret tt
  /\ (leds s <> 0 -> color s <> "" -> self (world_of r) = s)
  /\ (forall cfg button w,
        result_of (on_click cfg py3 button w) = Ret tt ->
        leds (self (world_of (on_click cfg py3 button w))) <> 0 ->
        color (self (world_of (on_click cfg py3 button w))) <> "" ->
        self (world_of (post_config_hook py3
                          (world_of (on_click cfg py3 button w))))
        = self (world_of (on_click cfg py3 button w))).
Proof.
  intros r.
  destruct (post_config_hook_self a (stored s)) as (Hs & Hst & Hr).
  fold r in Hs, Hst, Hr. cbn [stored sto_leds sto_color sto_color_idx] in Hs.
  assert (Hid : forall t : attrs,
             leds t <> 0 -> color t <> "" ->
             Attrs (if leds t =? 0 then 23 else leds t)
               (if (color t =? "")%string then COLOR_GOOD py3 else color t)
               (color_idx t) = t).
  { intros [l c i] Hl Hc. cbn [leds color color_idx] in *.
    destruct (Z.eqb_spec l 0); [contradiction |].
    now destruct (String.eqb_spec c ""). }
  split; [exact Hs |]. split; [exact Hst |]. split; [exact Hr |]. split.
  - intros Hl Hc. rewrite Hs. now apply Hid.
  - intros cfg button w Hret Hl Hc.
    apply click_returns_stored in Hret.
    destruct (world_of (on_click cfg py3 button w)) as [s1 st1].
    cbn [self store] in *. subst st1.
    destruct (post_config_hook_self s1 (stored s1)) as (E & _ & _).
    rewrite E. cbn [stored sto_leds sto_color sto_color_idx].
    now apply Hid.
Qed.

End Restart.

(** ** The palette index out of range *)

Section OutOfRange.

Lemma getitem_negative {A} (l : list A) (i : Z) :
  - Z.of_nat (List.length l) <= i < 0 ->
  exists a,
    getitem l i = Ret a
    /\ getitem l (i + Z.of_nat (List.length l)) = Ret a.
Proof.
  intros Hi.
  destruct (getitem_in_range l (i + Z.of_nat (List.length l)))
    as (a & Ha & Hn); [lia |].
  exists a. split; [| exact Ha].
  unfold getitem. destruct (Z.ltb_spec i 0); [| lia].
  destruct (Z.ltb_spec (i + Z.of_nat (List.length l)) 0); [lia |].
  destruct (Z.leb_spec (Z.of_nat (List.length l))
              (i + Z.of_nat (List.length l))); [lia |].
  cbn [orb]. now rewrite Hn.
Qed.

Lemma getitem_outside {A} (l : list A) (i : Z) :
  i < - Z.of_nat (List.length l) \/ Z.of_nat (List.length l) <= i ->
  getitem l i = Raise IndexError.
Proof.
  intros Hi. unfold getitem.
  destruct (Z.ltb_spec i 0).
  - destruct (Z.ltb_spec (i + Z.of_nat (List.length l)) 0);
      [reflexivity | lia].
  - destruct (Z.ltb_spec i 0); [lia |].
    destruct (Z.leb_spec (Z.of_nat (List.length l)) i);
      [reflexivity | lia].
Qed.

Variable cfg : config.
Variable py3 : host.

(** Button 1 with an index that is not within the palette, as a restart
    may restore it.  From the last index or beyond, and from -1, the click
    goes to index 0 and the first colour.  From an index in
    [-paletteSize-1, -2] it goes one up and takes the colour counted from
    the end of the palette.  From an index below that, and with an empty
    palette, it raises [IndexError] after the index was changed: the
    colour stays, nothing is sent and nothing is stored. *)
Theorem button1_index_out_of_range (w : world) :
  let n := ncolors cfg in
  let i := color_idx (self w) in
  let s' := self (world_of (on_click cfg py3 1 w)) in
  (1 <= n -> n - 1 <= i \/ i = -1 ->
   color_idx s' = 0 /\ getitem (colors cfg) 0 = Ret (color s'))
  /\ (- n - 1 <= i <= -2 ->
      color_idx s' = i + 1
      /\ getitem (colors cfg) (n + i + 1) = Ret (color s'))
  /\ (i < - n - 1 \/ n = 0 ->
      on_click cfg py3 1 w
      = (World (Attrs (leds (self w)) (color (self w))
                  (if i + 1 >? n - 1 then 0 else i + 1))
           (store w),
         [], Raise IndexError)).
Proof.
  intros n i s'. unfold s'. rewrite click1_run. cbn zeta.
  fold n. fold i. split; [| split].
  - intros Hn Hi.
    assert (E : (if i + 1 >? n - 1 then 0 else i + 1) = 0)
      by (destruct (Z.gtb_spec (i + 1) (n - 1)); lia).
    rewrite E.
    destruct (getitem_in_range (colors cfg) 0) as (c & Hc & _);
      [fold (ncolors cfg); fold n; lia |].
    rewrite Hc, (proj1 (sent_and_stored_spec cfg py3 _ _)).
    now split.
  - intros Hi.
    assert (E : (if i + 1 >? n - 1 then 0 else i + 1) = i + 1)
      by (destruct (Z.gtb_spec (i + 1) (n - 1)); lia).
    rewrite E.
    destruct (getitem_negative (colors cfg) (i + 1)) as (c & Hc & Hc');
      [fold (ncolors cfg); fold n; lia |].
    rewrite Hc, (proj1 (sent_and_stored_spec cfg py3 _ _)).
    split; [reflexivity |]. cbn [color]. rewrite <- Hc'. f_equal.
    fold (ncolors cfg). fold n. lia.
  - intros Hi. rewrite getitem_outside; [reflexivity |].
    fold (ncolors cfg). fold n.
    destruct (Z.gtb_spec (i + 1) (n - 1)); lia.
Qed.

End OutOfRange.

(** ** The network *)

Section Network.

Variable cfg : config.
Variable py3 : host.
Variable net : list byte -> bool.

Lemma sent_and_stored_network (s : attrs) (st : storage) :
  world_of (sent_and_stored cfg py3 s st)
  = world_of (sent_and_stored cfg (with_network py3 net) s st)
  /\ result_of (sent_and_stored cfg py3 s st)
     = result_of (sent_and_stored cfg (with_network py3 net) s st)
  /\ emitted (trace_of (sent_and_stored cfg py3 s st))
     = emitted (trace_of (sent_and_stored cfg (with_network py3 net) s st)).
Proof.
  unfold sent_and_stored, world_of, result_of, trace_of.
  destruct (frame_of cfg s) as [msg|e]; cbn [fst snd]; [| now repeat split].
  now rewrite !emitted_transport.
Qed.

Lemma picker_loop_network (lines : list string) (w : world) :
  world_of (for_ lines (picked_line cfg py3) w)
  = world_of (for_ lines (picked_line cfg (with_network py3 net)) w)
  /\ result_of (for_ lines (picked_line cfg py3) w)
     = result_of (for_ lines (picked_line cfg (with_network py3 net)) w)
  /\ emitted (trace_of (for_ lines (picked_line cfg py3) w))
     = emitted (trace_of (for_ lines
                            (picked_line cfg (with_network py3 net)) w)).
Proof.
  revert w. induction lines as [|c lines IH]; intros w; [now repeat split |].
  change (for_ (c :: lines) (picked_line cfg py3) w)
    with (bind (picked_line cfg py3 c)
            (fun _ => for_ lines (picked_line cfg py3)) w).
  change (for_ (c :: lines) (picked_line cfg (with_network py3 net)) w)
    with (bind (picked_line cfg (with_network py3 net) c)
            (fun _ => for_ lines (picked_line cfg (with_network py3 net)))
            w).
  unfold bind. rewrite !picked_line_run. cbn zeta.
  destruct (frame_of cfg _) as [msg|e]; [| now repeat split].
  specialize (IH (World (Attrs (leds (self w)) (rstrip_nl c)
                           (color_idx (self w))) (store w))).
  unfold world_of, result_of, trace_of in *.
  destruct (for_ lines (picked_line cfg py3) _) as [[w1 t1] r1].
  destruct (for_ lines (picked_line cfg (with_network py3 net)) _)
    as [[w2 t2] r2].
  cbn [fst snd] in *. destruct IH as (Hw & Hr & He).
  split; [exact Hw |]. split; [exact Hr |].
  cbn [app emitted]. rewrite <- !app_assoc, !emitted_app, !emitted_transport.
  cbn [app emitted]. now rewrite He.
Qed.

(** What the socket does has no bearing on the state: with any other
    behaviour of [sendto], a click leaves the same object and the same
    store, returns or raises alike, and hands the same frames to the
    transport.  A failed send is logged and nothing else. *)
Theorem network_does_not_matter (button : Z) (w : world) :
  world_of (on_click cfg py3 button w)
  = world_of (on_click cfg (with_network py3 net) button w)
  /\ result_of (on_click cfg py3 button w)
     = result_of (on_click cfg (with_network py3 net) button w)
  /\ emitted (trace_of (on_click cfg py3 button w))
     = emitted (trace_of (on_click cfg (with_network py3 net) button w)).
Proof.
  destruct (Z.eq_dec button 1) as [->|N1].
  { rewrite !click1_run. cbn zeta.
    destruct (getitem (colors cfg) _) as [c|e]; [| now repeat split].
    apply sent_and_stored_network. }
  destruct (Z.eq_dec button 2) as [->|N2].
  { rewrite !click2_run.
    change (picker (with_network py3 net)) with (picker py3).
    destruct (picker py3 (color_picker cfg)) as [lines|];
      [| now repeat split].
    rewrite !then_store_run.
    destruct (picker_loop_network lines w) as (Hw & Hr & He).
    rewrite <- Hw, <- Hr.
    destruct (result_of (for_ lines (picked_line cfg py3) w)) as [[]|e];
      unfold world_of, result_of, trace_of in *; cbn [fst snd];
      now repeat split. }
  destruct (Z.eq_dec button 3) as [->|N3].
  { rewrite !click3_run. cbn zeta.
    change (COLOR_GOOD (with_network py3 net)) with (COLOR_GOOD py3).
    destruct (frame_of cfg _) as [msg|e]; [| now repeat split].
    unfold world_of, result_of, trace_of. cbn [fst snd].
    now rewrite !emitted_transport. }
  destruct (Z.eq_dec button 4) as [->|N4].
  { rewrite !click4_run. cbn zeta.
    destruct (leds (self w) <? leds_total cfg); [| now repeat split].
    apply sent_and_stored_network. }
  destruct (Z.eq_dec button 5) as [->|N5].
  { rewrite !click5_run. cbn zeta.
    destruct (leds (self w) >? 0); [| now repeat split].
    apply sent_and_stored_network. }
  rewrite !click_other_run by lia. now repeat split.
Qed.

End Network.

(** ** The widget *)

Section Widget.

Variable cfg : config.
Variable py3 : host.
Variable sk : skin.
Variable safe_format : string -> string -> string -> Z -> string.

Lemma lights_run (w : world) :
  lights sk safe_format w
  = (w, [],
     Ret (Widget (safe_format (format sk) (name sk) (color (self w))
                    (leds (self w)))
            (name sk) (color (self w)) (icon sk) (icon_color sk)
            (leds (self w)))).
Proof. now destruct w. Qed.

(** The widget and the store agree, and a restart keeps the widget.
    After a click that returns, the colour and the LED count the widget
    shows are those the store holds; and when an LED is on and the colour
    is not empty, the widget built after a restart from that store is the
    widget built before it.  After button 3 the widget shows the host's
    default colour. *)
Theorem widget_shows_stored_state (button : Z) (w : world) :
  result_of (on_click cfg py3 button w) = Ret tt ->
  let w1 := world_of (on_click cfg py3 button w) in
  let w2 := world_of (post_config_hook py3 w1) in
  exists wd,
    lights sk safe_format w1 = (w1, [], Ret wd)
    /\ sto_color (store w1) = Some (w_color wd)
    /\ sto_leds (store w1) = Some (w_leds wd)
    /\ (button = 3 -> w_color wd = COLOR_GOOD py3)
    /\ (w_leds wd <> 0 -> w_color wd <> "" ->
        lights sk safe_format w2 = (w2, [], Ret wd)).
Proof.
  intros Hr w1 w2. rewrite lights_run. eexists. split; [reflexivity |].
  cbn [w_color w_leds].
  pose proof (click_returns_stored cfg py3 button w Hr) as Hs.
  fold w1 in Hs. rewrite Hs. cbn [stored sto_color sto_leds].
  split; [reflexivity |]. split; [reflexivity |]. split.
  - intros ->. unfold w1. revert Hr. rewrite click3_run. cbn zeta.
    now destruct (frame_of cfg _).
  - intros Hl Hc. rewrite lights_run.
    assert (E : self w2 = self w1).
    { unfold w2.
      destruct w1 as [s1 st1]. cbn [self store] in *. subst st1.
      destruct (post_config_hook_self py3 s1 (stored s1)) as (E & _ & _).
      rewrite E. cbn [stored sto_leds sto_color sto_color_idx].
      destruct s1 as [l c i]. cbn [leds color color_idx] in *.
      destruct (Z.eqb_spec l 0); [contradiction |].
      now destruct (String.eqb_spec c ""). }
    now rewrite E.
Qed.

End Widget.

Lemma widget_shows_stored_state_sample :
  exists wd,
    lights (Skin "light" "i" "o" "{name}") (fun f n c l => f)
      (world_of (on_click (Sample.strip "default" 4) Sample.quiet 3
                   (Sample.fresh 2)))
    = (world_of (on_click (Sample.strip "default" 4) Sample.quiet 3
                   (Sample.fresh 2)), [], Ret wd)
    /\ w_color wd = "#00FF00".
Proof.
  destruct (widget_shows_stored_state (Sample.strip "default" 4) Sample.quiet
              (Skin "light" "i" "o" "{name}") (fun f n c l => f) 3
              (Sample.fresh 2) eq_refl) as (wd & Hw & _ & _ & Hc & _).
  exists wd. split; [exact Hw | exact (Hc eq_refl)].
Defined.

(** ** Counts outside the strip and modes without a name *)

Section Edges.

Variable cfg : config.

(** In mode "default" the count is cut to the strip: the first
    [min (max ledsOn 0) totalLeds] LEDs get the colour and the others are
    dark, so a negative count lights nothing and a count beyond the strip
    lights all of it. *)
Theorem default_shape (p : string) (ledsOn totalLeds : Z) (c : string) :
  mode cfg = "default" -> 0 <= totalLeds ->
  let lit := Z.min (Z.max ledsOn 0) totalLeds in
  _frame cfg p ledsOn totalLeds c
  = Ret (Some (_header p
               ++ join (repeat c (Z.to_nat lit)
                        ++ repeat "000000" (Z.to_nat (totalLeds - lit)))%list))
  /\ (ledsOn <= 0 ->
      _frame cfg p ledsOn totalLeds c
      = Ret (Some (_header p
                   ++ join (repeat "000000" (Z.to_nat totalLeds)))))
  /\ (totalLeds <= ledsOn ->
      _frame cfg p ledsOn totalLeds c
      = Ret (Some (_header p ++ join (repeat c (Z.to_nat totalLeds))))).
Proof.
  intros Hm Ht lit.
  assert (Hf : _frame cfg p ledsOn totalLeds c
               = Ret (Some (_header p
                            ++ join (repeat c (Z.to_nat lit)
                                     ++ repeat "000000"
                                          (Z.to_nat (totalLeds - lit)))%list))).
  { unfold _frame. rewrite frame_from_default by trivial.
    do 4 f_equal.
    transitivity (map (fun n => paint c (in_run 0 lit n)) (range totalLeds)).
    - apply map_ext_in. intros n Hn. apply in_range in Hn. f_equal.
      unfold in_run. destruct (Z.leb_spec 0 n); [| lia]. cbn [andb].
      destruct (Z.ltb_spec n (0 + ledsOn)), (Z.ltb_spec n (0 + lit));
        trivial; unfold lit in *; lia.
    - replace (range totalLeds) with (range (0 + lit + (totalLeds - lit)))
        by (f_equal; lia).
      rewrite run_shape by (unfold lit; lia). reflexivity. }
  split; [exact Hf |]. split; intros H; rewrite Hf.
  - replace lit with 0 by (unfold lit; lia).
    now rewrite Z.sub_0_r.
  - replace lit with totalLeds by (unfold lit; lia).
    rewrite Z.sub_diag. cbn [Z.to_nat repeat]. now rewrite app_nil_r.
Qed.

Variable py3 : host.

(** A mode that is none of "default", "center" and "distribute", such as
    a name in other letters, lights nothing and fails nowhere: the frame is
    the header alone, whatever the colour and the count, and the send
    operation transmits the header's bytes, no byte at all for a protocol
    other than "drgb". *)
Theorem unnamed_mode_sends_header (w : world) :
  mode cfg <> "default" -> mode cfg <> "center" ->
  mode cfg <> "distribute" ->
  frame_of cfg (self w) = Ret (Some (_header (proto cfg)))
  /\ _send_frame cfg py3 w
     = (w,
        Fromhex (Some (_header (proto cfg)))
          :: Sendto (if (proto cfg =? "drgb")%string then [x02; xff] else [])
          :: (if sendto_raises py3
                   (if (proto cfg =? "drgb")%string then [x02; xff] else [])
              then [Log "Failed to contact light: " (Some OSError) LOG_ERROR]
              else []),
        Ret tt).
Proof.
  intros H1 H2 H3.
  assert (Hf : frame_of cfg (self w) = Ret (Some (_header (proto cfg)))).
  { unfold frame_of, _frame. now apply frame_from_other. }
  split; [exact Hf |].
  rewrite send_frame_run, Hf. unfold transport, _header.
  now destruct (proto cfg =? "drgb")%string.
Qed.

End Edges.

Lemma default_shape_sample :
  _frame (Sample.strip "default" 2) "rgb" 7 2 "aabbcc"
  = Ret (Some "aabbccaabbcc").
Proof.
  exact (proj1 (default_shape (Sample.strip "default" 2) "rgb" 7 2 "aabbcc"
                  eq_refl ltac:(lia))).
Defined.

Lemma unnamed_mode_sends_header_sample :
  frame_of (Sample.strip "Center" 4) (self (Sample.fresh 2))
  = Ret (Some "02FF").
Proof.
  exact (proj1 (unnamed_mode_sends_header (Sample.strip "Center" 4)
                  Sample.quiet (Sample.fresh 2) ltac:(discriminate)
                  ltac:(discriminate) ltac:(discriminate))).
Defined.
